(** * The scrape endpoint of the Qarakal site backend

    A shallow embedding of [scrape_site] (src/main.py, lines 48-149): the
    handler fetches a page, parses it with BeautifulSoup and builds the
    normalized content model (title, description, hero, nav, sections,
    images) that the front end renders.

    The development has four layers:
    - the Python [str] methods the handler calls ([strip], [lower],
      [startswith], slicing, [join]);
    - the BeautifulSoup tree and the navigation the handler uses ([find],
      [find_all], [get_text], [.string], [next_siblings], [find_next]);
    - the handler itself, statement by statement, over an arbitrary parser
      and an arbitrary fetch function;
    - a model of the "html.parser" tree builder on plain markup, used to run
      the handler on concrete pages. *)

From Stdlib Require Import String Ascii List Bool Arith Lia.
Import ListNotations.
Open Scope string_scope.
Open Scope list_scope.

(* ------------------------------------------------------------------ *)
(** ** Python strings

    A [str] is a sequence of code points; the embedding takes the code
    points below 256, one per [ascii]. *)

(** [str.isspace] on one character: TAB..CR, FS..US, SPACE, NEL, NBSP. *)
Definition isspace (c : ascii) : bool :=
  let n := nat_of_ascii c in
  (((9 <=? n) && (n <=? 13)) || ((28 <=? n) && (n <=? 32))
   || (n =? 133) || (n =? 160))%nat.

(** Truth value of a [str]: every string but the empty one. *)
Definition truthy (s : string) : bool :=
  match s with EmptyString => false | String _ _ => true end.

(** Truth value of an [Optional[str]]. *)
Definition truthy_opt (o : option string) : bool :=
  match o with Some s => truthy s | None => false end.

Fixpoint lstrip (s : string) : string :=
  match s with
  | EmptyString => EmptyString
  | String c s' => if isspace c then lstrip s' else s
  end.

Fixpoint rstrip (s : string) : string :=
  match s with
  | EmptyString => EmptyString
  | String c s' =>
      match rstrip s' with
      | EmptyString => if isspace c then EmptyString else String c EmptyString
      | r => String c r
      end
  end.

(** [s.strip()] *)
Definition strip (s : string) : string := rstrip (lstrip s).

(** [s[:n]] *)
Fixpoint slice_to (n : nat) (s : string) : string :=
  match n, s with
  | S n', String c s' => String c (slice_to n' s')
  | _, _ => EmptyString
  end.

(** [l[:n]] on lists is [firstn n l]. *)

(** [str.lower] on one character: A-Z and the Latin-1 capitals. *)
Definition lower_char (c : ascii) : ascii :=
  let n := nat_of_ascii c in
  if (((65 <=? n) && (n <=? 90))
      || ((192 <=? n) && (n <=? 222) && negb (n =? 215)))%nat
  then ascii_of_nat (n + 32) else c.

Fixpoint lower (s : string) : string :=
  match s with
  | EmptyString => EmptyString
  | String c s' => String (lower_char c) (lower s')
  end.

(** [s.startswith(p)] *)
Fixpoint startswith (s p : string) {struct p} : bool :=
  match p with
  | EmptyString => true
  | String a p' =>
      match s with
      | EmptyString => false
      | String b s' => Ascii.eqb a b && startswith s' p'
      end
  end.

(** [sep.join(parts)] *)
Definition join (sep : string) (parts : list string) : string :=
  String.concat sep parts.

(** [a or b] on strings. *)
Definition str_or (a : option string) (b : string) : string :=
  match a with
  | Some s => if truthy s then s else b
  | None => b
  end.

(* ------------------------------------------------------------------ *)
(** ** The BeautifulSoup tree *)

(** A page element: a tag with its attribute dictionary and contents, a
    text string, or a string of another class (comment, declaration, ...),
    which [get_text] leaves out. *)
#[warnings="-register-all"]
Inductive node : Type :=
| Tag (name : string) (attrs : list (string * string)) (contents : list node)
| NavigableString (s : string)
| Comment (s : string).

(** The [BeautifulSoup] object is the contents of the document root. *)
Definition soup : Type := list node.

(** A page element as the handler meets it: the node and the siblings that
    follow it under its parent. *)
Record PageElement : Type := mkElement {
  self : node;
  next_siblings : list node
}.

Definition attrs_of (n : node) : list (string * string) :=
  match n with Tag _ a _ => a | _ => [] end.

Definition contents_of (n : node) : list node :=
  match n with Tag _ _ cs => cs | _ => [] end.

(** [tag.get(key)] *)
Fixpoint get (attrs : list (string * string)) (key : string) : option string :=
  match attrs with
  | [] => None
  | (k, v) :: rest => if String.eqb k key then Some v else get rest key
  end.

(** [tag.get(key, default)] *)
Definition get_default (attrs : list (string * string)) (key default : string)
  : string :=
  match get attrs key with Some v => v | None => default end.

(** The element [n] placed before the siblings [sibs], followed by all its
    descendants, in document order. *)
Fixpoint elements_of (n : node) (sibs : list node) : list PageElement :=
  mkElement n sibs ::
  match n with
  | Tag _ _ cs =>
      (fix walk (l : list node) : list PageElement :=
         match l with
         | [] => []
         | c :: l' => elements_of c l' ++ walk l'
         end) cs
  | _ => []
  end.

(** [tag.descendants]: every element below the given contents, in document
    order. *)
Fixpoint descendants (cs : list node) : list PageElement :=
  match cs with
  | [] => []
  | c :: cs' => elements_of c cs' ++ descendants cs'
  end.

Definition is_tag (nm : string) (n : node) : bool :=
  match n with Tag nm' _ _ => String.eqb nm' nm | _ => false end.

Definition name_in (names : list string) (n : node) : bool :=
  match n with
  | Tag nm _ _ => existsb (String.eqb nm) names
  | _ => false
  end.

Definition has_attr (key : string) (n : node) : bool :=
  match get (attrs_of n) key with Some _ => true | None => false end.

Definition attr_is (key value : string) (n : node) : bool :=
  match get (attrs_of n) key with
  | Some v => String.eqb v value
  | None => false
  end.

(** [tag.find_all(...)] with the match written as a predicate. *)
Definition find_all (p : node -> bool) (cs : list node) : list PageElement :=
  filter (fun e => p (self e)) (descendants cs).

(** [tag.find(...)]: the first match together with [next_elements], the
    rest of the document after it. *)
Fixpoint first_match (p : node -> bool) (l : list PageElement)
  : option (PageElement * list PageElement) :=
  match l with
  | [] => None
  | e :: rest => if p (self e) then Some (e, rest) else first_match p rest
  end.

Definition find (p : node -> bool) (cs : list node) : option PageElement :=
  option_map fst (first_match p (descendants cs)).

(** [tag.string]: the single string of a tag, through single children. *)
Fixpoint string_of (n : node) : option string :=
  match n with
  | Tag _ _ [c] => string_of c
  | Tag _ _ _ => None
  | NavigableString s => Some s
  | Comment s => Some s
  end.

(** The strings [get_text(strip=True)] yields: each text string below the
    contents, stripped, the empty ones dropped. *)
Definition stripped_string (e : PageElement) : list string :=
  match self e with
  | NavigableString s => let s' := strip s in if truthy s' then [s'] else []
  | _ => []
  end.

Definition all_strings (cs : list node) : list string :=
  flat_map stripped_string (descendants cs).

(** [tag.get_text(separator, strip=True)] *)
Definition get_text (separator : string) (n : node) : string :=
  join separator (all_strings (contents_of n)).

(** [soup.get_text(separator, strip=True)] on a [BeautifulSoup] object. *)
Definition soup_get_text (separator : string) (sp : soup) : string :=
  join separator (all_strings sp).

(* ------------------------------------------------------------------ *)
(** ** The normalized content model *)

Record Hero : Type := mkHero {
  heading : option string;
  subheading : option string
}.

Record NavLink : Type := mkNavLink {
  label : string;
  href : string
}.

Module Sec.
Record t : Type := mk {
  title : string;
  body : string
}.
End Sec.

Record Image : Type := mkImage {
  src : string;
  alt : string
}.

(** The dictionary [data] the handler returns. *)
Record Data : Type := mkData {
  source : string;
  title : option string;
  description : option string;
  hero : Hero;
  nav : list NavLink;
  sections : list Sec.t;
  images : list Image
}.

(** The one failure the handler raises. *)
Record HTTPException : Type := mkHTTPException {
  status_code : nat;
  detail : string
}.

Definition newline : string := String (ascii_of_nat 10) EmptyString.

Definition default_url : string := "https://qarakal.ai/".

Definition default_body : string :=
  "We build advanced quantitative computing and AI solutions.".

(* ------------------------------------------------------------------ *)
(** ** The handler *)

Section Handler.

(** [requests.get(target, timeout=10)] followed by [raise_for_status()]:
    the text of the response, or the message of the exception. *)
Variable requests_get : string -> string + string.

(** [BeautifulSoup(markup, "html.parser")]. *)
Variable html_parser : string -> soup.

(** [str(tag)], the markup BeautifulSoup writes for an element. *)
Variable str : node -> string.

Definition BeautifulSoup (markup : string) : soup := html_parser markup.

(** [tag[key]]; the handler reads it only from tags found with
    [href=True] or after a successful [get]. *)
Definition getitem (n : node) (key : string) : string :=
  get_default (attrs_of n) key "".

(** Line 64. *)
Definition scrape_title (sp : soup) : option string :=
  match find (is_tag "title") sp with
  | Some t =>
      match string_of (self t) with
      | Some s => if truthy s then Some (strip s) else None
      | None => None
      end
  | None => None
  end.

Definition is_meta (key value : string) (n : node) : bool :=
  is_tag "meta" n && attr_is key value n.

(** Lines 65-68. *)
Definition scrape_description (sp : soup) : option string :=
  let og_desc :=
    match find (is_meta "name" "description") sp with
    | Some m => Some m
    | None => find (is_meta "property" "og:description") sp
    end in
  match og_desc with
  | Some m =>
      if truthy_opt (get (attrs_of (self m)) "content")
      then Some (strip (getitem (self m) "content"))
      else None
  | None => None
  end.

(** Line 71. *)
Definition scrape_h1s (sp : soup) : list string :=
  map (fun h => get_text "" (self h)) (find_all (is_tag "h1") sp).

(** Line 76. *)
Definition scrape_hero_heading (sp : soup) : option string :=
  match scrape_h1s sp with
  | h :: _ => Some h
  | [] => scrape_title sp
  end.

(** [tag.find_next(names)] over the tag's [next_elements]. *)
Definition find_next (names : list string) (next_elements : list PageElement)
  : option PageElement :=
  option_map fst (first_match (name_in names) next_elements).

(** Lines 77-84. *)
Definition scrape_hero_sub (sp : soup) : option string :=
  if truthy_opt (scrape_hero_heading sp) then
    match first_match (is_tag "h1") (descendants sp) with
    | Some (first_h1, next_elements) =>
        match find_next ["p"; "h2"; "div"] next_elements with
        | Some sib_p => Some (slice_to 300 (get_text "" (self sib_p)))
        | None => None
        end
    | None => None
    end
  else None.

Definition is_anchor (n : node) : bool := is_tag "a" n && has_attr "href" n.

(** Lines 90-94, one turn of the loop. *)
Definition nav_step (nav_links : list NavLink) (a : PageElement)
  : list NavLink :=
  let text := get_text "" (self a) in
  let href := strip (getitem (self a) "href") in
  if truthy text && truthy href && negb (startswith (lower text) "#")
  then nav_links ++ [mkNavLink text href]
  else nav_links.

(** Lines 98-102, one turn of the loop. *)
Definition fallback_step (nav_links : list NavLink) (a : PageElement)
  : list NavLink :=
  let text := get_text "" (self a) in
  let href := strip (getitem (self a) "href") in
  if truthy text
  then nav_links ++ [mkNavLink text href]
  else nav_links.

(** Lines 87-102. *)
Definition scrape_nav_links (sp : soup) : list NavLink :=
  match find (is_tag "nav") sp with
  | Some nav =>
      fold_left nav_step (find_all is_anchor (contents_of (self nav))) []
  | None =>
      let anchors := firstn 8 (find_all is_anchor sp) in
      fold_left fallback_step anchors []
  end.

(** Line 114. *)
Definition sibling_text (sib : node) : string :=
  soup_get_text " " (BeautifulSoup (str sib)).

(** Lines 110-116: the loop over [h2.next_siblings], with its [break]. *)
Fixpoint collect_parts (sibs : list node) (content_parts : list string)
  : list string :=
  match sibs with
  | [] => content_parts
  | sib :: rest =>
      if is_tag "h2" sib then content_parts
      else if name_in ["p"; "h3"; "ul"; "ol"; "div"] sib then
        let text := sibling_text sib in
        if truthy text
        then collect_parts rest (content_parts ++ [text])
        else collect_parts rest content_parts
      else collect_parts rest content_parts
  end.

(** Lines 107-121, one turn of the loop over the [h2] elements. *)
Definition section_step (sections : list Sec.t) (h2 : PageElement)
  : list Sec.t :=
  let content_parts := collect_parts (next_siblings h2) [] in
  let sec_text := slice_to 1200 (join newline content_parts) in
  sections ++ [Sec.mk (get_text "" (self h2)) sec_text].

(** Lines 105-121. *)
Definition scrape_sections (sp : soup) : list Sec.t :=
  fold_left section_step (find_all (is_tag "h2") sp) [].

(** Lines 126-129, one turn of the loop. *)
Definition image_step (images : list Image) (img : PageElement)
  : list Image :=
  let src := get (attrs_of (self img)) "src" in
  let alt := get_default (attrs_of (self img)) "alt" "" in
  match src with
  | Some s => if truthy s then images ++ [mkImage s alt] else images
  | None => images
  end.

(** Lines 124-130. *)
Definition scrape_images (sp : soup) : list Image :=
  firstn 10 (fold_left image_step (find_all (is_tag "img") sp) []).

(** Lines 61-149: the content model of a parsed page. *)
Definition build_data (sp : soup) (target : string) : Data :=
  let title := scrape_title sp in
  let description := scrape_description sp in
  let sections := scrape_sections sp in
  {| source := target;
     title := title;
     description := description;
     hero := {| heading := scrape_hero_heading sp;
                subheading := scrape_hero_sub sp |};
     nav := firstn 8 (scrape_nav_links sp);
     sections :=
       match sections with
       | [] => [Sec.mk "About" (str_or description default_body)]
       | _ :: _ => firstn 6 sections
       end;
     images := scrape_images sp |}.

(** The extraction proper: raw markup and source identifier to content
    model (lines 61-149). *)
Definition normalize (rawMarkup sourceIdentifier : string) : Data :=
  build_data (BeautifulSoup rawMarkup) sourceIdentifier.

(** Lines 49-149. *)
Definition scrape_site (url : option string) : HTTPException + Data :=
  let target := str_or url default_url in
  match requests_get target with
  | inl e =>
      inl (mkHTTPException 502 ("Failed to fetch site: " ++ e)%string)
  | inr text => inr (normalize text target)
  end.

End Handler.

(* ------------------------------------------------------------------ *)
(** ** The handler when the parser rejects markup

    [BeautifulSoup(...)] raises on markup that "html.parser" rejects, and
    the two places that call it (line 61 for the page, line 114 for a
    sibling written back to markup) stand outside the [try] of lines
    55-59.  The definitions of this section keep that failure: the parser
    answers with a tree or with the text of the exception, and the
    exception ends the call.  The definitions above are the same handler
    under a parser that accepts every markup. *)

(** How a call fails: the 502 of lines 58-59, or the parser's exception. *)
Inductive Failure : Type :=
| FetchFailed (e : HTTPException)
| ParserRejectedMarkup (text : string).

Section Raising.

Variable requests_get : string -> string + string.

(** [BeautifulSoup(markup, "html.parser")]: the tree, or the text of the
    exception raised. *)
Variable try_parser : string -> string + soup.

Variable str : node -> string.

(** Line 114. *)
Definition sibling_text_raising (sib : node) : string + string :=
  match try_parser (str sib) with
  | inl x => inl x
  | inr sp => inr (soup_get_text " " sp)
  end.

(** Lines 110-116. *)
Fixpoint collect_parts_raising (sibs : list node) (content_parts : list string)
  : string + list string :=
  match sibs with
  | [] => inr content_parts
  | sib :: rest =>
      if is_tag "h2" sib then inr content_parts
      else if name_in ["p"; "h3"; "ul"; "ol"; "div"] sib then
        match sibling_text_raising sib with
        | inl x => inl x
        | inr text =>
            if truthy text
            then collect_parts_raising rest (content_parts ++ [text])
            else collect_parts_raising rest content_parts
        end
      else collect_parts_raising rest content_parts
  end.

(** Lines 107-121, one turn of the loop over the [h2] elements. *)
Definition section_step_raising (sections : list Sec.t) (h2 : PageElement)
  : string + list Sec.t :=
  match collect_parts_raising (next_siblings h2) [] with
  | inl x => inl x
  | inr content_parts =>
      let sec_text := slice_to 1200 (join newline content_parts) in
      inr (sections ++ [Sec.mk (get_text "" (self h2)) sec_text])
  end.

(** Lines 106-121: the loop, ended by the first exception. *)
Fixpoint sections_loop_raising (h2s : list PageElement) (sections : list Sec.t)
  : string + list Sec.t :=
  match h2s with
  | [] => inr sections
  | h2 :: rest =>
      match section_step_raising sections h2 with
      | inl x => inl x
      | inr sections' => sections_loop_raising rest sections'
      end
  end.

(** Lines 105-121. *)
Definition scrape_sections_raising (sp : soup) : string + list Sec.t :=
  sections_loop_raising (find_all (is_tag "h2") sp) [].

(** Lines 63-149 on a parsed page. *)
Definition build_data_raising (sp : soup) (target : string) : string + Data :=
  let title := scrape_title sp in
  let description := scrape_description sp in
  match scrape_sections_raising sp with
  | inl x => inl x
  | inr sections =>
      inr {| source := target;
             title := title;
             description := description;
             hero := {| heading := scrape_hero_heading sp;
                        subheading := scrape_hero_sub sp |};
             nav := firstn 8 (scrape_nav_links sp);
             sections :=
               match sections with
               | [] => [Sec.mk "About" (str_or description default_body)]
               | _ :: _ => firstn 6 sections
               end;
             images := scrape_images sp |}
  end.

(** Lines 49-149. *)
Definition scrape_site_raising (url : option string) : Failure + Data :=
  let target := str_or url default_url in
  match requests_get target with
  | inl e =>
      inl (FetchFailed
             (mkHTTPException 502 ("Failed to fetch site: " ++ e)%string))
  | inr text =>
      match try_parser text with
      | inl x => inl (ParserRejectedMarkup x)
      | inr sp =>
          match build_data_raising sp target with
          | inl x => inl (ParserRejectedMarkup x)
          | inr data => inr data
          end
      end
  end.

End Raising.

(** The tree a parser gives where it accepts the markup. *)
Definition accepted (try_parser : string -> string + soup) (markup : string)
  : soup :=
  match try_parser markup with
  | inr sp => sp
  | inl _ => []
  end.

(* ------------------------------------------------------------------ *)
(** ** The database check

    [test_database] (src/main.py, lines 152-190) fills a dictionary while
    it probes the [database] module.  What it writes before an exception
    stays written, so the embedding threads the dictionary through a small
    state-and-exception monad.  The literals that hold symbols outside
    Latin-1 are written as they stand in the source; they are compared and
    concatenated, never measured or cut. *)

(** An exception (an instance of [Exception]) as the handlers see it:
    whether it is an [ImportError], and [str(e)]. *)
Record Exc : Type := mkExc {
  is_import_error : bool;
  message : string
}.

(** What reading [db.name] does, the same each time it is read:
    [AttributeError] (then [hasattr] is false), a value, or another
    exception, which [hasattr] lets through. *)
Inductive attribute_lookup : Type :=
| AttributeError
| Returns (value : string)
| Raises (e : Exc).

(** The object [db]: its [name] and what [db.list_collection_names()]
    does. *)
Record Database : Type := mkDatabase {
  db_name : attribute_lookup;
  list_collection_names : Exc + list string
}.

(** What the function reads from outside: [from database import db]
    (an exception, [None] or the object) and [os.getenv]. *)
Record World : Type := mkWorld {
  import_db : Exc + option Database;
  getenv : string -> option string
}.

(** The dictionary [response]. *)
Record Response : Type := mkResponse {
  backend : string;
  database : string;
  database_url : option string;
  database_name : option string;
  connection_status : string;
  collections : list string
}.

(** [response[key] = value], one function per key. *)
Definition set_database (v : string) (r : Response) : Response :=
  mkResponse (backend r) v (database_url r) (database_name r)
             (connection_status r) (collections r).

Definition set_database_url (v : option string) (r : Response) : Response :=
  mkResponse (backend r) (database r) v (database_name r)
             (connection_status r) (collections r).

Definition set_database_name (v : option string) (r : Response) : Response :=
  mkResponse (backend r) (database r) (database_url r) v
             (connection_status r) (collections r).

Definition set_connection_status (v : string) (r : Response) : Response :=
  mkResponse (backend r) (database r) (database_url r) (database_name r)
             v (collections r).

Definition set_collections (v : list string) (r : Response) : Response :=
  mkResponse (backend r) (database r) (database_url r) (database_name r)
             (connection_status r) v.

(** A computation over the dictionary that returns or raises. *)
Definition M (A : Type) : Type := Response -> (Exc + A) * Response.

Definition ret {A : Type} (a : A) : M A := fun r => (inr a, r).

Definition bind {A B : Type} (m : M A) (k : A -> M B) : M B :=
  fun r =>
    match m r with
    | (inr a, r') => k a r'
    | (inl e, r') => (inl e, r')
    end.

(** The outcome of a call into the outside world. *)
Definition call {A : Type} (outcome : Exc + A) : M A := fun r => (outcome, r).

Definition assign (f : Response -> Response) : M unit :=
  fun r => (inr tt, f r).

(** [try: body except Exception as e: handler(e)] *)
Definition try_except {A : Type} (body : M A) (handler : Exc -> M A) : M A :=
  fun r =>
    match body r with
    | (inl e, r') => handler e r'
    | (inr a, r') => (inr a, r')
    end.

Notation "x <- m ;; k" := (bind m (fun x => k))
  (at level 61, m at next level, right associativity).
Notation "m ;;; k" := (bind m (fun _ => k))
  (at level 61, right associativity).

(** Lines 155-162. *)
Definition initial_response : Response :=
  {| backend := "✅ Running";
     database := "❌ Not Available";
     database_url := None;
     database_name := None;
     connection_status := "Not Connected";
     collections := [] |}.

(** Line 170: [db.name if hasattr(db, 'name') else "✅ Connected"]. *)
Definition read_name (db : Database) : M string :=
  match db_name db with
  | AttributeError => ret "✅ Connected"
  | Returns value => ret value
  | Raises e => call (inl e)
  end.

(** Lines 173-178, the inner [try]. *)
Definition probe_collections (db : Database) : M unit :=
  try_except
    (collections <- call (list_collection_names db) ;;
     assign (set_collections (firstn 10 collections)) ;;;
     assign (set_database "✅ Connected & Working"))
    (fun e =>
       assign (set_database
                 ("⚠️  Connected but Error: " ++ slice_to 50 (message e))%string)).

(** Lines 165-180, the body of the outer [try]. *)
Definition probe_database (w : World) : M unit :=
  db <- call (import_db w) ;;
  match db with
  | Some db =>
      assign (set_database "✅ Available") ;;;
      assign (set_database_url (Some "✅ Configured")) ;;;
      (name <- read_name db ;;
       assign (set_database_name (Some name)) ;;;
       assign (set_connection_status "Connected") ;;;
       probe_collections db)
  | None => assign (set_database "⚠️  Available but not initialized")
  end.

(** Lines 182-185, the two handlers of the outer [try]. *)
Definition probe_failed (e : Exc) : M unit :=
  if is_import_error e
  then assign (set_database
                 "❌ Database module not found (run enable-database first)")
  else assign (set_database ("❌ Error: " ++ slice_to 50 (message e))%string).

(** Lines 187-188: whether an environment variable is set and not
    empty. *)
Definition env_flag (w : World) (key : string) : string :=
  if truthy_opt (getenv w key) then "✅ Set" else "❌ Not Set".

(** Lines 154-190 as a computation from the initial dictionary. *)
Definition test_database_body (w : World) : M Response :=
  try_except (probe_database w) probe_failed ;;;
  assign (set_database_url (Some (env_flag w "DATABASE_URL"))) ;;;
  assign (set_database_name (Some (env_flag w "DATABASE_NAME"))) ;;;
  (fun response => (inr response, response)).

(** [test_database()]: the dictionary returned, or the exception that
    escapes. *)
Definition test_database (w : World) : Exc + Response :=
  fst (test_database_body w initial_response).

(* ------------------------------------------------------------------ *)
(** ** A model of BeautifulSoup's "html.parser" tree builder

    The handler takes the parser as it comes with BeautifulSoup; the
    theorems below hold for every parser.  To run the handler on concrete
    pages, this module follows the tree builder on plain markup: text,
    start tags with attributes (quoted, unquoted or without value), end
    tags, [<x/>], void elements, comments and the references [&amp;]
    [&lt;] [&gt;] [&quot;].  Declarations, processing instructions, other
    character references and the raw text of [script] and [style] are not
    part of the model. *)

Module HtmlParser.

Definition lt_char : ascii := "<"%char.
Definition gt_char : ascii := ">"%char.
Definition slash : ascii := "/"%char.
Definition equals : ascii := "="%char.
Definition amp : ascii := "&"%char.
Definition squote : ascii := "'"%char.
Definition dquote : ascii := ascii_of_nat 34.

(** Whitespace inside tags, and the ASCII_SPACES of the tree builder. *)
Definition html_space (c : ascii) : bool :=
  let n := nat_of_ascii c in
  ((n =? 32) || (n =? 10) || (n =? 9) || (n =? 12) || (n =? 13))%nat.

Definition is_alpha (c : ascii) : bool :=
  let n := nat_of_ascii c in
  (((65 <=? n) && (n <=? 90)) || ((97 <=? n) && (n <=? 122)))%nat.

Definition void_elements : list string :=
  ["area"; "base"; "br"; "col"; "embed"; "hr"; "img"; "input"; "keygen";
   "link"; "menuitem"; "meta"; "param"; "source"; "track"; "wbr";
   "basefont"; "bgsound"; "command"; "frame"; "image"; "isindex";
   "nextid"; "spacer"].

Definition is_void (nm : string) : bool :=
  existsb (String.eqb nm) void_elements.

Definition preserve_whitespace_tags : list string := ["pre"; "textarea"].

(** The characters before the first one that satisfies [stop], and the
    rest from that character on. *)
Fixpoint span (stop : ascii -> bool) (s : string) : string * string :=
  match s with
  | EmptyString => (EmptyString, EmptyString)
  | String c s' =>
      if stop c then (EmptyString, s)
      else let (a, b) := span stop s' in (String c a, b)
  end.

Fixpoint skip (p : ascii -> bool) (s : string) : string :=
  match s with
  | EmptyString => EmptyString
  | String c s' => if p c then skip p s' else s
  end.

Fixpoint drop (n : nat) (s : string) : string :=
  match n, s with
  | S n', String _ s' => drop n' s'
  | _, _ => s
  end.

(** The text before the first occurrence of [pat] and the text after
    it. *)
Fixpoint split_on (pat s : string) : option (string * string) :=
  if String.prefix pat s then Some (EmptyString, drop (String.length pat) s)
  else match s with
       | EmptyString => None
       | String c s' =>
           match split_on pat s' with
           | Some (a, b) => Some (String c a, b)
           | None => None
           end
       end.

(** The four references the model decodes. *)
Definition entity (s : string) : option (string * string) :=
  if String.prefix "amp;" s then Some ("&", drop 4 s)
  else if String.prefix "lt;" s then Some ("<", drop 3 s)
  else if String.prefix "gt;" s then Some (">", drop 3 s)
  else if String.prefix "quot;" s then Some (String dquote "", drop 5 s)
  else None.

Fixpoint unescape (s : string) : string :=
  match s with
  | EmptyString => EmptyString
  | String c s' =>
      if Ascii.eqb c amp then
        match entity s' with
        | Some (ch, _) =>
            (* the reference is replaced; the recursion goes on over [s']
               and the letters of the reference are dropped below *)
            (ch ++ unescape_after s')%string
        | None => String c (unescape s')
        end
      else String c (unescape s')
  end
with unescape_after (s : string) : string :=
  match s with
  | EmptyString => EmptyString
  | String c s' =>
      if Ascii.eqb c ";"%char then unescape s' else unescape_after s'
  end.

(** [attr_dict[key] = value], a later duplicate replacing the value. *)
Fixpoint dict_set (d : list (string * string)) (key value : string)
  : list (string * string) :=
  match d with
  | [] => [(key, value)]
  | (k, v) :: rest =>
      if String.eqb k key then (k, value) :: rest
      else (k, v) :: dict_set rest key value
  end.

Inductive token : Type :=
| StartTag (name : string) (attrs : list (string * string)) (closed : bool)
| EndTag (name : string)
| CommentTok (data : string).

Definition name_stop (c : ascii) : bool :=
  html_space c || Ascii.eqb c slash || Ascii.eqb c gt_char.

Definition attr_stop (c : ascii) : bool :=
  name_stop c || Ascii.eqb c equals.

Definition value_stop (c : ascii) : bool :=
  html_space c || Ascii.eqb c gt_char.

(** The value after an attribute name, if an [=] follows. *)
Definition attr_value (s : string) : option (option string * string) :=
  match skip html_space s with
  | String c after =>
      if Ascii.eqb c equals then
        match skip html_space (skip (Ascii.eqb equals) after) with
        | String q v =>
            if Ascii.eqb q dquote || Ascii.eqb q squote then
              match span (Ascii.eqb q) v with
              | (value, String _ rest) => Some (Some value, rest)
              | (_, EmptyString) => None
              end
            else
              let (value, rest) := span value_stop (String q v) in
              Some (Some value, rest)
        | EmptyString => None
        end
      else Some (None, s)
  | EmptyString => None
  end.

(** The attributes of a start tag up to its [>] or [/>]. *)
Fixpoint attributes (fuel : nat) (s : string) (d : list (string * string))
  : option (list (string * string) * bool * string) :=
  match fuel with
  | O => None
  | S fuel' =>
      match s with
      | EmptyString => None
      | String c s' =>
          if Ascii.eqb c gt_char then Some (d, false, s')
          else if Ascii.eqb c slash then
            match s' with
            | String c' s'' =>
                if Ascii.eqb c' gt_char then Some (d, true, s'')
                else attributes fuel' s' d
            | EmptyString => None
            end
          else if html_space c then attributes fuel' s' d
          else
            let (more, after) := span attr_stop s' in
            let key := lower (String c more) in
            match attr_value after with
            | Some (Some v, rest) =>
                attributes fuel' rest (dict_set d key (unescape v))
            | Some (None, rest) =>
                attributes fuel' rest (dict_set d key EmptyString)
            | None => None
            end
      end
  end.

(** The construct that starts after a [<], if the text is one. *)
Definition markup (s : string) : option (token * string) :=
  if String.prefix "!--" s then
    match split_on "-->" (drop 3 s) with
    | Some (data, rest) => Some (CommentTok data, rest)
    | None => None
    end
  else
    match s with
    | String c s' =>
        if is_alpha c then
          let (nm, after) := span name_stop s in
          match attributes (S (String.length after)) after [] with
          | Some (d, closed, rest) => Some (StartTag (lower nm) d closed, rest)
          | None => None
          end
        else if Ascii.eqb c slash then
          match s' with
          | String c' _ =>
              if is_alpha c' then
                let (nm, after) := span name_stop s' in
                match span (Ascii.eqb gt_char) after with
                | (_, String _ rest) => Some (EndTag (lower nm), rest)
                | (_, EmptyString) => None
                end
              else None
          | EmptyString => None
          end
        else None
    | EmptyString => None
    end.

(** An open tag: its name, attributes and the children parsed so far,
    the last one first. *)
Record frame : Type := mkFrame {
  f_name : string;
  f_attrs : list (string * string);
  f_children : list node
}.

(** The tree under construction: the open tags, innermost first, over the
    children of the document root, and the text collected since the last
    tag, its last character first. *)
Record builder : Type := mkBuilder {
  tagStack : list frame;
  root : list node;
  current_data : list ascii
}.

Definition object_was_parsed (o : node) (b : builder) : builder :=
  match tagStack b with
  | f :: fs =>
      mkBuilder (mkFrame (f_name f) (f_attrs f) (o :: f_children f) :: fs)
                (root b) (current_data b)
  | [] => mkBuilder [] (o :: root b) (current_data b)
  end.

Definition all_spaces (s : string) : bool :=
  match skip html_space s with EmptyString => true | _ => false end.

Fixpoint has_char (c : ascii) (s : string) : bool :=
  match s with
  | EmptyString => false
  | String c' s' => Ascii.eqb c c' || has_char c s'
  end.

Definition endData (b : builder) : builder :=
  match current_data b with
  | [] => b
  | _ :: _ =>
      let data := string_of_list_ascii (rev (current_data b)) in
      let preserved :=
        existsb (fun f => existsb (String.eqb (f_name f))
                                  preserve_whitespace_tags) (tagStack b) in
      let data :=
        if all_spaces data && negb preserved
        then if has_char (ascii_of_nat 10) data then newline else " "
        else data in
      object_was_parsed (NavigableString data)
        (mkBuilder (tagStack b) (root b) [])
  end.

Definition handle_data (data : string) (b : builder) : builder :=
  mkBuilder (tagStack b) (root b)
            (rev (list_ascii_of_string data) ++ current_data b).

Definition popTag (b : builder) : builder :=
  match tagStack b with
  | f :: fs =>
      object_was_parsed (Tag (f_name f) (f_attrs f) (rev (f_children f)))
        (mkBuilder fs (root b) (current_data b))
  | [] => b
  end.

(** Pop the open tags down to and with the innermost one called [nm]. *)
Fixpoint popToTag (fuel : nat) (nm : string) (b : builder) : builder :=
  match fuel with
  | O => b
  | S fuel' =>
      match tagStack b with
      | f :: _ =>
          if String.eqb (f_name f) nm then popTag b
          else popToTag fuel' nm (popTag b)
      | [] => b
      end
  end.

Definition handle (t : token) (b : builder) : builder :=
  match t with
  | StartTag nm d closed =>
      let b := endData b in
      let b := mkBuilder (mkFrame nm d [] :: tagStack b) (root b) [] in
      if closed || is_void nm then popTag b else b
  | EndTag nm =>
      let b := endData b in
      if existsb (fun f => String.eqb (f_name f) nm) (tagStack b)
      then popToTag (List.length (tagStack b)) nm b
      else b
  | CommentTok data => object_was_parsed (Comment data) (endData b)
  end.

Fixpoint feed (fuel : nat) (s : string) (b : builder) : builder :=
  match fuel with
  | O => b
  | S fuel' =>
      match s with
      | EmptyString => b
      | String c rest =>
          if Ascii.eqb c lt_char then
            match markup rest with
            | Some (t, rest') => feed fuel' rest' (handle t b)
            | None => feed fuel' rest (handle_data "<" b)
            end
          else if Ascii.eqb c amp then
            match entity rest with
            | Some (ch, rest') => feed fuel' rest' (handle_data ch b)
            | None => feed fuel' rest (handle_data "&" b)
            end
          else feed fuel' rest (handle_data (String c EmptyString) b)
      end
  end.

Fixpoint close_all (fuel : nat) (b : builder) : builder :=
  match fuel with
  | O => b
  | S fuel' =>
      match tagStack b with
      | [] => b
      | _ :: _ => close_all fuel' (popTag b)
      end
  end.

(** [BeautifulSoup(markup, "html.parser")] on plain markup. *)
Definition parse (s : string) : soup :=
  let b := endData (feed (String.length s) s (mkBuilder [] [] [])) in
  rev (root (close_all (List.length (tagStack b)) b)).

(** The escaping of the "minimal" output formatter. *)
Fixpoint escape (s : string) : string :=
  match s with
  | EmptyString => EmptyString
  | String c s' =>
      ((if Ascii.eqb c amp then "&amp;"
        else if Ascii.eqb c lt_char then "&lt;"
        else if Ascii.eqb c gt_char then "&gt;"
        else String c EmptyString) ++ escape s')%string
  end.

Fixpoint escape_dquote (s : string) : string :=
  match s with
  | EmptyString => EmptyString
  | String c s' =>
      ((if Ascii.eqb c dquote then "&quot;" else String c EmptyString)
       ++ escape_dquote s')%string
  end.

Definition quoted_attribute_value (v : string) : string :=
  let dq := String dquote EmptyString in
  let sq := String squote EmptyString in
  if has_char dquote v then
    if has_char squote v then (dq ++ escape_dquote v ++ dq)%string
    else (sq ++ v ++ sq)%string
  else (dq ++ v ++ dq)%string.

Definition attribute (kv : string * string) : string :=
  (" " ++ fst kv ++ "=" ++ quoted_attribute_value (escape (snd kv)))%string.

(** [str(element)]. *)
Fixpoint str (n : node) : string :=
  match n with
  | Tag nm d cs =>
      let opening := ("<" ++ nm ++ String.concat "" (map attribute d))%string in
      match cs with
      | [] =>
          if is_void nm then (opening ++ "/>")%string
          else (opening ++ "></" ++ nm ++ ">")%string
      | _ :: _ =>
          (opening ++ ">" ++ String.concat "" (map str cs)
           ++ "</" ++ nm ++ ">")%string
      end
  | NavigableString s => escape s
  | Comment s => ("<!--" ++ s ++ "-->")%string
  end.

End HtmlParser.

(* ------------------------------------------------------------------ *)
(** ** The vocabulary of the specification *)

(** A string is trimmed when [strip] leaves it as it is. *)
Definition trimmed (s : string) : Prop := strip s = s.

(** The first character, if any, is not whitespace. *)
Definition starts_clean (s : string) : bool :=
  match s with
  | EmptyString => true
  | String c _ => negb (isspace c)
  end.

(** The last character, if any, is not whitespace. *)
Fixpoint ends_clean (s : string) : bool :=
  match s with
  | EmptyString => true
  | String c EmptyString => negb (isspace c)
  | String _ s' => ends_clean s'
  end.

(** Pieces that [join] may glue: none is empty and each is clean at both
    ends. *)
Definition clean_piece (s : string) : Prop :=
  truthy s = true /\ starts_clean s = true /\ ends_clean s = true.

(** A trimmed text that may have been cut at [n] characters: no whitespace
    in front, and none at the end when the text is shorter than [n]. *)
Definition trimmed_unless_cut (n : nat) (s : string) : Prop :=
  lstrip s = s /\ (String.length s < n -> trimmed s).

Definition trimmed_opt (o : option string) : Prop :=
  match o with Some s => trimmed s | None => True end.

(** The output bounds of the content model. *)
Definition within_bounds (d : Data) : Prop :=
  List.length (nav d) <= 8
  /\ 1 <= List.length (sections d) <= 6
  /\ List.length (images d) <= 10
  /\ Forall (fun s => String.length (Sec.body s) <= 1200) (sections d).

(** The siblings walked after a second-level heading: those before the
    next [h2] sibling. *)
Fixpoint until_h2 (sibs : list node) : list node :=
  match sibs with
  | [] => []
  | sib :: rest => if is_tag "h2" sib then [] else sib :: until_h2 rest
  end.

(** The siblings whose text a section includes. *)
Definition qualifies (sib : node) : bool :=
  name_in ["p"; "h3"; "ul"; "ol"; "div"] sib.

(** The text of an anchor as [get_text(strip=True)] gives it (its strings,
    each stripped, the empty ones dropped, glued together) and its trimmed
    href (empty when the anchor has none). *)
Definition text_of (a : PageElement) : string := get_text "" (self a).

Definition href_of (a : PageElement) : string :=
  strip (get_default (attrs_of (self a)) "href" "").

Definition nav_entry (a : PageElement) : NavLink :=
  mkNavLink (text_of a) (href_of a).

(** The anchors of the primary path: non-empty href, non-empty text, text
    not beginning with [#]. *)
Definition nav_keeps (a : PageElement) : bool :=
  truthy (href_of a) && truthy (text_of a)
  && negb (startswith (text_of a) "#").

(** The navigation as the specification words it: in both paths the
    anchors are filtered first and the list is capped at 8 afterwards. *)
Definition nav_as_specified (sp : soup) : list NavLink :=
  match find (is_tag "nav") sp with
  | Some n =>
      firstn 8 (map nav_entry
                  (filter nav_keeps (find_all (is_tag "a") (contents_of (self n)))))
  | None =>
      firstn 8 (map nav_entry
                  (filter (fun a => truthy (href_of a) && truthy (text_of a))
                          (find_all (is_tag "a") sp)))
  end.

(** The block that follows the first [h1]: the nearest element after the
    heading's start in document order (the heading's own descendants come
    first) that is a paragraph, a second-level heading or a [div]. *)
Definition following_block (sp : soup) : option PageElement :=
  match first_match (is_tag "h1") (descendants sp) with
  | Some (_, following) =>
      option_map fst (first_match (name_in ["p"; "h2"; "div"]) following)
  | None => None
  end.

(** The subheading as the specification words it: computed whenever a
    first [h1] exists. *)
Definition subheading_as_specified (sp : soup) : option string :=
  option_map (fun e => slice_to 300 (get_text "" (self e))) (following_block sp).

(** The images the handler keeps, those with a non-empty [src], and the
    entry of one: its [src], and its [alt] or the empty string. *)
Definition has_src (img : PageElement) : bool :=
  truthy_opt (get (attrs_of (self img)) "src").

Definition image_entry (img : PageElement) : Image :=
  mkImage (get_default (attrs_of (self img)) "src" "")
          (get_default (attrs_of (self img)) "alt" "").

Section Specified.

Variable html_parser : string -> soup.
Variable str : node -> string.

(** The fragments of a section: the non-empty texts of the qualifying
    siblings walked. *)
Definition fragments (sibs : list node) : list string :=
  filter truthy
         (map (sibling_text html_parser str)
              (filter qualifies (until_h2 sibs))).

(** The section a second-level heading starts. *)
Definition section_of (h2 : PageElement) : Sec.t :=
  Sec.mk (get_text "" (self h2))
         (slice_to 1200 (join newline (fragments (next_siblings h2)))).

End Specified.

(* ------------------------------------------------------------------ *)
(** ** Pages *)

(** A text between double quotes. *)
Definition Q (s : string) : string :=
  (String HtmlParser.dquote "" ++ s ++ String HtmlParser.dquote "")%string.

Fixpoint replicate (n : nat) (c : ascii) : string :=
  match n with
  | O => EmptyString
  | S n' => String c (replicate n' c)
  end.

(** The page of the specification's first scenario. *)
Definition acme_page : string :=
  ("<html><head><title>Acme</title><meta name=" ++ Q "description"
   ++ " content=" ++ Q "We build things"
   ++ "></head><body><nav><a href=" ++ Q "/about" ++ ">About</a><a href="
   ++ Q "#top" ++ ">Jump</a></nav><h1>Welcome</h1><p>Leading platform.</p>"
   ++ "<h2>Services</h2><p>We do X.</p><h2>Contact</h2><p>Reach us.</p>"
   ++ "</body></html>")%string.

(** A page without second-level headings whose description has 1201
    characters. *)
Definition long_description_page : string :=
  ("<html><head><meta name=" ++ Q "description" ++ " content="
   ++ Q (replicate 1201 "x") ++ "></head><body><p>Hello</p></body></html>")%string.

(** A page whose title holds one blank. *)
Definition blank_title_page : string :=
  "<html><head><title> </title></head><body><p>Hello</p></body></html>".

(** A page without [nav]: an anchor with an empty href, seven anchors
    without text, and a ninth anchor with both. *)
Definition nine_anchors_page : string :=
  ("<body><a href=" ++ Q "" ++ ">Home</a>"
   ++ "<a href=" ++ Q "/1" ++ "></a><a href=" ++ Q "/2" ++ "></a>"
   ++ "<a href=" ++ Q "/3" ++ "></a><a href=" ++ Q "/4" ++ "></a>"
   ++ "<a href=" ++ Q "/5" ++ "></a><a href=" ++ Q "/6" ++ "></a>"
   ++ "<a href=" ++ Q "/7" ++ "></a>"
   ++ "<a href=" ++ Q "/about" ++ ">About</a></body>")%string.

(** A page whose first heading holds no text. *)
Definition empty_h1_page : string :=
  "<body><h1></h1><p>Tagline</p></body>".

(** A page with one image, its attributes written with blanks around. *)
Definition spaced_image_page : string :=
  ("<body><img src=" ++ Q " logo.png " ++ " alt=" ++ Q " Logo " ++ "></body>")%string.


(** The content model the first scenario describes, for a source
    identifier and a navigation list. *)
Definition acme_document (src : string) (links : list NavLink) : Data :=
  {| source := src;
     title := Some "Acme";
     description := Some "We build things";
     hero := {| heading := Some "Welcome";
                subheading := Some "Leading platform." |};
     nav := links;
     sections := [Sec.mk "Services" "We do X."; Sec.mk "Contact" "Reach us."];
     images := [] |}.

(** The page of the specification's second scenario. *)
Definition empty_page : string := "<html></html>".

(** A page with neither title nor first-level heading. *)
Definition plain_page : string := "<body><p>Hello</p></body>".

(** A page whose [nav] holds a link and a jump marker. *)
Definition marker_page : string :=
  ("<nav><a href=" ++ Q "/docs" ++ ">Docs</a><a href=" ++ Q "/top"
   ++ ">#top</a></nav>")%string.

(** Two fetches that answer differently everywhere but at the default
    address. *)
Definition fetch_acme (u : string) : string + string := inr acme_page.

Definition fetch_acme_only (u : string) : string + string :=
  if String.eqb u default_url then inr acme_page else inl "connection refused".

(** A page whose paragraph after the heading has a blank as its 300th
    character. *)
Definition cut_at_blank_page : string :=
  ("<body><h1>Title</h1><p>" ++ replicate 299 "a" ++ " b</p></body>")%string.

(** A page whose first description element has no content, before an
    [og:description] that has one. *)
Definition two_descriptions_page : string :=
  ("<head><meta name=" ++ Q "description" ++ "><meta property="
   ++ Q "og:description" ++ " content=" ++ Q "From the graph"
   ++ "></head>")%string.

(** A page whose [nav] holds no anchor, before an anchor outside it. *)
Definition empty_nav_page : string :=
  ("<nav></nav><a href=" ++ Q "/home" ++ ">Home</a>")%string.

(** A page whose first heading holds a [div]. *)
Definition nested_block_page : string :=
  "<body><h1><div>Brand</div></h1><p>Tagline</p></body>".

(** The siblings after a heading: a paragraph, bare text, a table, a
    second paragraph, the next heading and a paragraph after it. *)
Definition mixed_siblings : list node :=
  [Tag "p" [] [NavigableString "One"];
   NavigableString "loose text";
   Tag "table" [] [NavigableString "cell"];
   Tag "p" [] [NavigableString "Two"];
   Tag "h2" [] [NavigableString "Next"];
   Tag "p" [] [NavigableString "Three"]].

(* ------------------------------------------------------------------ *)
(** ** The vocabulary of the further properties *)

Section NodeInduction.

(** Induction over the tree: a property holds of every node when it
    holds of the strings and passes from the contents of a tag to the
    tag. *)
Variable P : node -> Prop.
Hypothesis on_tag :
  forall nm d cs, Forall P cs -> P (Tag nm d cs).
Hypothesis on_string : forall s, P (NavigableString s).
Hypothesis on_comment : forall s, P (Comment s).

Fixpoint node_induction (n : node) : P n :=
  match n with
  | Tag nm d cs =>
      on_tag nm d cs
        ((fix all (l : list node) : Forall P l :=
            match l with
            | [] => Forall_nil P
            | c :: l' => Forall_cons c (node_induction c) (all l')
            end) cs)
  | NavigableString s => on_string s
  | Comment s => on_comment s
  end.

End NodeInduction.

(** A stretch of the document is nested when whatever a search finds in
    it is followed at once by the descendants of what it found. *)
Definition nested (l : list PageElement) : Prop :=
  forall (p : node -> bool) (e : PageElement) (rest : list PageElement),
    first_match p l = Some (e, rest) ->
    exists tail, rest = descendants (contents_of (self e)) ++ tail.

(** The description a [meta] element gives: its stripped content when the
    attribute is there and not empty. *)
Definition content_of (m : PageElement) : option string :=
  match get (attrs_of (self m)) "content" with
  | Some (String c rest) => Some (strip (String c rest))
  | _ => None
  end.

(** Whether reading [db.name] goes through. *)
Definition name_read (db : Database) : bool :=
  match db_name db with Raises _ => false | _ => true end.

(** The text the outer handlers write for an exception. *)
Definition failure_text (e : Exc) : string :=
  if is_import_error e
  then "❌ Database module not found (run enable-database first)"
  else ("❌ Error: " ++ slice_to 50 (message e))%string.

(** The database status for a world, case by case. *)
Definition database_status (w : World) : string :=
  match import_db w with
  | inl e => failure_text e
  | inr None => "⚠️  Available but not initialized"
  | inr (Some db) =>
      match db_name db with
      | Raises e => failure_text e
      | _ =>
          match list_collection_names db with
          | inr _ => "✅ Connected & Working"
          | inl e =>
              ("⚠️  Connected but Error: " ++ slice_to 50 (message e))%string
          end
      end
  end.

(** The module gave an object and reading its name went through. *)
Definition connected (w : World) : bool :=
  match import_db w with
  | inr (Some db) => name_read db
  | _ => false
  end.

(** The collections that were listed, when everything went through. *)
Definition listed (w : World) : list string :=
  match import_db w with
  | inr (Some db) =>
      if name_read db then
        match list_collection_names db with
        | inr l => l
        | inl _ => []
        end
      else []
  | _ => []
  end.

(** Worlds: a database whose listing times out, with one variable set and
    the other empty; and a module that cannot be imported. *)
Definition timeout_world : World :=
  {| import_db :=
       inr (Some {| db_name := Returns "app";
                    list_collection_names :=
                      inl (mkExc false "server selection timed out") |});
     getenv := fun key =>
                 if String.eqb key "DATABASE_URL" then Some "mongodb://db"
                 else if String.eqb key "DATABASE_NAME" then Some ""
                 else None |}.

Definition twelve_collections_world : World :=
  {| import_db :=
       inr (Some {| db_name := AttributeError;
                    list_collection_names :=
                      inr ["a"; "b"; "c"; "d"; "e"; "f"; "g"; "h"; "i"; "j";
                           "k"; "l"] |});
     getenv := fun _ => None |}.

(** *** Sections and the text of the siblings *)

(** The text of a sibling itself, its strings joined by a blank. *)
Definition own_text (sib : node) : string := get_text " " sib.

(** The sections as the specification words them: every sibling of the
    five kinds gives its text, and the synthetic body is the description
    whenever there is one. *)
Definition sections_as_specified (sp : soup) (description : option string)
  : list Sec.t :=
  match find_all (is_tag "h2") sp with
  | [] =>
      [Sec.mk "About"
              match description with Some d => d | None => default_body end]
  | h2s =>
      firstn 6
        (map (fun h2 =>
                Sec.mk (get_text "" (self h2))
                       (slice_to 1200
                          (join newline
                             (map own_text
                                (filter qualifies
                                        (until_h2 (next_siblings h2)))))))
             h2s)
  end.

(** The section of a heading from the text of the siblings themselves:
    the texts that are not empty, joined by a newline, cut at 1200. *)
Definition section_from_text (h2 : PageElement) : Sec.t :=
  Sec.mk (get_text "" (self h2))
         (slice_to 1200
            (join newline
               (filter truthy
                  (map own_text
                     (filter qualifies (until_h2 (next_siblings h2))))))).

(** Writing a sibling to markup and parsing it again keeps its text, for
    the siblings the sections of a page walk. *)
Definition reparse_keeps_text
           (html_parser : string -> soup) (str : node -> string) (sp : soup)
  : Prop :=
  forall h2 sib,
    In h2 (find_all (is_tag "h2") sp) ->
    In sib (filter qualifies (until_h2 (next_siblings h2))) ->
    soup_get_text " " (html_parser (str sib)) = own_text sib.

(** The parser accepts the markup of every sibling the sections of a page
    walk. *)
Definition siblings_accepted
           (try_parser : string -> string + soup) (str : node -> string)
           (sp : soup) : Prop :=
  forall h2 sib,
    In h2 (find_all (is_tag "h2") sp) ->
    In sib (filter qualifies (until_h2 (next_siblings h2))) ->
    exists t, try_parser (str sib) = inr t.

(** A page whose section holds a block without text between two
    paragraphs. *)
Definition empty_block_page : string :=
  "<body><h2>Topic</h2><p>One</p><div></div><p>Two</p></body>".

(** A page without second-level heading whose description is one
    blank. *)
Definition blank_description_page : string :=
  ("<head><meta name=" ++ Q "description" ++ " content=" ++ Q " "
   ++ "></head><body><p>Hello</p></body>")%string.

(** The page of the first scenario followed by 5000 blanks. *)
Definition padded_acme_page : string :=
  (acme_page ++ replicate 5000 " ")%string.

(** The model parser as a parser that accepts every markup. *)
Definition accept_all (markup : string) : string + soup :=
  inr (HtmlParser.parse markup).

(* ------------------------------------------------------------------ *)
(** ** Facts about the string methods *)

Lemma lstrip_starts_clean (s : string) : starts_clean (lstrip s) = true.
Proof.
  induction s as [|c s IH]; simpl; [reflexivity|].
  destruct (isspace c) eqn:E; [exact IH|].
  simpl. now rewrite E.
Qed.

Lemma lstrip_fixed (s : string) : starts_clean s = true -> lstrip s = s.
Proof.
  destruct s as [|c s]; simpl; [reflexivity|].
  intros H. apply negb_true_iff in H. now rewrite H.
Qed.

Lemma rstrip_ends_clean (s : string) : ends_clean (rstrip s) = true.
Proof.
  induction s as [|c s IH]; simpl; [reflexivity|].
  destruct (rstrip s) as [|c' r] eqn:E.
  - destruct (isspace c) eqn:Ec; simpl; [reflexivity|now rewrite Ec].
  - exact IH.
Qed.

Lemma rstrip_fixed (s : string) : ends_clean s = true -> rstrip s = s.
Proof.
  induction s as [|c s IH]; simpl; [reflexivity|].
  destruct s as [|c' s'].
  - intros H. apply negb_true_iff in H. simpl. now rewrite H.
  - intros H. rewrite (IH H). reflexivity.
Qed.

Lemma rstrip_starts_clean (s : string) :
  starts_clean s = true -> starts_clean (rstrip s) = true.
Proof.
  destruct s as [|c s]; simpl; [reflexivity|].
  intros H. destruct (rstrip s).
  - apply negb_true_iff in H. rewrite H. simpl. now rewrite H.
  - exact H.
Qed.

Lemma strip_clean (s : string) :
  starts_clean (strip s) = true /\ ends_clean (strip s) = true.
Proof.
  unfold strip. split.
  - apply rstrip_starts_clean, lstrip_starts_clean.
  - apply rstrip_ends_clean.
Qed.

Lemma clean_trimmed (s : string) :
  starts_clean s = true -> ends_clean s = true -> trimmed s.
Proof.
  intros Hs He. unfold trimmed, strip.
  rewrite (lstrip_fixed s Hs). now apply rstrip_fixed.
Qed.

Lemma trimmed_clean (s : string) :
  trimmed s -> starts_clean s = true /\ ends_clean s = true.
Proof.
  unfold trimmed. intros H. rewrite <- H. apply strip_clean.
Qed.

Lemma strip_trimmed (s : string) : trimmed (strip s).
Proof.
  destruct (strip_clean s). now apply clean_trimmed.
Qed.

Lemma starts_clean_append (a b : string) :
  truthy a = true -> starts_clean a = true -> starts_clean (a ++ b) = true.
Proof.
  destruct a; simpl; [discriminate|auto].
Qed.

Lemma truthy_append_r (a b : string) :
  truthy b = true -> truthy (a ++ b) = true.
Proof.
  destruct a; simpl; auto.
Qed.

Lemma ends_clean_append (a b : string) :
  truthy b = true -> ends_clean b = true -> ends_clean (a ++ b) = true.
Proof.
  intros Hb He. induction a as [|c a IH]; simpl; [exact He|].
  destruct (a ++ b)%string eqn:E; [|exact IH].
  pose proof (truthy_append_r a b Hb) as T. rewrite E in T. discriminate.
Qed.

Lemma join_clean (sep : string) (parts : list string) :
  Forall clean_piece parts ->
  starts_clean (join sep parts) = true /\ ends_clean (join sep parts) = true
  /\ (parts <> [] -> truthy (join sep parts) = true).
Proof.
  unfold join. induction 1 as [|x l Hx Hl IH]; simpl.
  - repeat split. congruence.
  - destruct Hx as (Tx & Sx & Ex). destruct l as [|y l'].
    + repeat split; auto.
    + destruct IH as (_ & IHe & IHt).
      assert (T : truthy (String.concat sep (y :: l')) = true)
        by (apply IHt; discriminate).
      repeat split.
      * now apply starts_clean_append.
      * apply ends_clean_append.
        -- now apply truthy_append_r.
        -- now apply ends_clean_append.
      * intros _. destruct x; [discriminate|reflexivity].
Qed.

Lemma join_trimmed (sep : string) (parts : list string) :
  Forall clean_piece parts -> trimmed (join sep parts).
Proof.
  intros H. destruct (join_clean sep parts H) as (A & B & _).
  now apply clean_trimmed.
Qed.

Lemma slice_to_length (n : nat) (s : string) :
  String.length (slice_to n s) <= n.
Proof.
  revert s. induction n as [|n IH]; intros [|c s]; simpl; try lia.
  specialize (IH s). lia.
Qed.

Lemma slice_to_short (n : nat) (s : string) :
  String.length (slice_to n s) < n -> slice_to n s = s.
Proof.
  revert s. induction n as [|n IH]; intros [|c s]; simpl; try lia; auto.
  intros H. f_equal. apply IH. lia.
Qed.

Lemma slice_to_starts_clean (n : nat) (s : string) :
  starts_clean s = true -> starts_clean (slice_to n s) = true.
Proof.
  destruct n, s; simpl; auto.
Qed.

Lemma lower_char_hash (c : ascii) :
  Ascii.eqb "#"%char (lower_char c) = Ascii.eqb "#"%char c.
Proof.
  destruct c as [[] [] [] [] [] [] [] []]; reflexivity.
Qed.

(** Lowering a text does not change whether it begins with [#]. *)
Lemma startswith_hash_lower (s : string) :
  startswith (lower s) "#" = startswith s "#".
Proof.
  destruct s as [|c s]; [reflexivity|].
  cbn [startswith lower]. now rewrite lower_char_hash.
Qed.

(* ------------------------------------------------------------------ *)
(** ** Facts about the loops and the searches *)

Section Loops.

Context {A B : Type}.

(** A loop that only appends builds the concatenation of what each turn
    appends. *)
Lemma fold_left_appends (step : list B -> A -> list B) (f : A -> list B) :
  (forall acc a, step acc a = acc ++ f a) ->
  forall l acc, fold_left step l acc = acc ++ flat_map f l.
Proof.
  intros H l. induction l as [|a l IH]; intros acc; simpl.
  - now rewrite app_nil_r.
  - rewrite IH, H, <- app_assoc. reflexivity.
Qed.

Lemma flat_map_keep (keep : A -> bool) (f : A -> B) (l : list A) :
  flat_map (fun a => if keep a then [f a] else []) l = map f (filter keep l).
Proof.
  induction l as [|a l IH]; simpl; [reflexivity|].
  destruct (keep a); simpl; now rewrite IH.
Qed.

(** Two filters agree under a third one that implies they agree. *)
Lemma filter_under (f g h : A -> bool) (l : list A) :
  (forall x, f x = true -> g x = h x) ->
  filter f (filter g l) = filter f (filter h l).
Proof.
  intros H. induction l as [|a l IH]; simpl; [reflexivity|].
  destruct (g a) eqn:G, (h a) eqn:Hh; simpl; rewrite ?IH; try reflexivity;
    destruct (f a) eqn:F; try reflexivity;
    specialize (H a F); congruence.
Qed.

Lemma firstn_short (n : nat) (l : list A) :
  List.length l <= n -> firstn n l = l.
Proof.
  revert l. induction n as [|n IH]; intros [|a l]; simpl; try lia; auto.
  intros H. f_equal. apply IH. lia.
Qed.

Lemma firstn_bound (n : nat) (l : list A) : List.length (firstn n l) <= n.
Proof.
  revert l. induction n as [|n IH]; intros [|a l]; simpl; try lia.
  specialize (IH l). lia.
Qed.

Lemma firstn_min (n : nat) (l : list A) :
  List.length (firstn n l) = Nat.min n (List.length l).
Proof.
  revert l. induction n as [|n IH]; intros [|a l]; simpl; auto.
Qed.

Lemma filter_bound (f : A -> bool) (l : list A) :
  List.length (filter f l) <= List.length l.
Proof.
  induction l as [|a l IH]; simpl; [lia|].
  destruct (f a); simpl; lia.
Qed.

Lemma Forall_firstn (P : A -> Prop) (n : nat) (l : list A) :
  Forall P l -> Forall P (firstn n l).
Proof.
  intros H. revert n. induction H as [|a l Ha Hl IH]; intros [|n]; simpl;
    constructor; auto.
Qed.

End Loops.

(** [find] returns the first element [find_all] returns. *)
Lemma first_match_filter (p : node -> bool) (l : list PageElement) :
  filter (fun e => p (self e)) l =
  match first_match p l with
  | Some (e, rest) => e :: filter (fun e => p (self e)) rest
  | None => []
  end.
Proof.
  induction l as [|e l IH]; simpl; [reflexivity|].
  destruct (p (self e)); [reflexivity|exact IH].
Qed.

Lemma find_first (p : node -> bool) (cs : list node) :
  find p cs = hd_error (find_all p cs).
Proof.
  unfold find, find_all. rewrite first_match_filter.
  destruct (first_match p (descendants cs)) as [[e rest]|]; reflexivity.
Qed.

(** The anchors found with [href=True] have the key [href], so reading
    [a["href"]] never fails in the two loops over them. *)
Lemma anchors_have_href (cs : list node) :
  Forall (fun a => get (attrs_of (self a)) "href"
                   = Some (get_default (attrs_of (self a)) "href" ""))
         (find_all is_anchor cs).
Proof.
  apply Forall_forall. intros a H. unfold find_all in H.
  apply filter_In in H. destruct H as [_ H].
  unfold is_anchor, has_attr in H. apply andb_true_iff in H.
  destruct H as [_ H]. unfold get_default.
  destruct (get (attrs_of (self a)) "href"); [reflexivity|discriminate H].
Qed.

(** Every string [get_text] joins is stripped and not empty. *)
Lemma all_strings_clean (cs : list node) : Forall clean_piece (all_strings cs).
Proof.
  unfold all_strings. induction (descendants cs) as [|e l IH]; simpl.
  - constructor.
  - apply Forall_app. split; [|exact IH].
    unfold stripped_string. destruct (self e) as [nm d c|s|s];
      try constructor.
    destruct (truthy (strip s)) eqn:T; constructor; [|constructor].
    destruct (strip_clean s). repeat split; assumption.
Qed.

Lemma get_text_trimmed (sep : string) (n : node) : trimmed (get_text sep n).
Proof. apply join_trimmed, all_strings_clean. Qed.

Lemma soup_get_text_clean (sep : string) (sp : soup) :
  truthy (soup_get_text sep sp) = true -> clean_piece (soup_get_text sep sp).
Proof.
  intros T. destruct (join_clean sep _ (all_strings_clean sp)) as (A & B & _).
  repeat split; assumption.
Qed.

Lemma cut_of_trimmed (n : nat) (s : string) :
  trimmed s ->
  lstrip (slice_to n s) = slice_to n s
  /\ (String.length (slice_to n s) < n -> trimmed (slice_to n s)).
Proof.
  intros H. destruct (trimmed_clean s H) as (A & _). split.
  - apply lstrip_fixed, slice_to_starts_clean, A.
  - intros L. now rewrite (slice_to_short n s L).
Qed.

(* ------------------------------------------------------------------ *)
(** ** Facts about the handler *)

Arguments slice_to : simpl never.
Arguments firstn : simpl never.

Section HandlerFacts.

Variable html_parser : string -> soup.
Variable str : node -> string.

(** *** Navigation *)

Lemma nav_step_appends (acc : list NavLink) (a : PageElement) :
  nav_step acc a = acc ++ (if nav_keeps a then [nav_entry a] else []).
Proof.
  unfold nav_step, nav_keeps, nav_entry, text_of, href_of, getitem.
  rewrite startswith_hash_lower.
  destruct (truthy (get_text "" (self a)));
    destruct (truthy (strip (get_default (attrs_of (self a)) "href" "")));
    destruct (startswith (get_text "" (self a)) "#"); simpl;
    now rewrite ?app_nil_r.
Qed.

Lemma fallback_step_appends (acc : list NavLink) (a : PageElement) :
  fallback_step acc a =
  acc ++ (if truthy (text_of a) then [nav_entry a] else []).
Proof.
  unfold fallback_step, nav_entry, text_of, href_of, getitem.
  destruct (truthy (get_text "" (self a))); now rewrite ?app_nil_r.
Qed.

(** An anchor the primary path keeps carries an href attribute. *)
Lemma nav_keeps_has_href (a : PageElement) :
  nav_keeps a = true -> is_anchor (self a) = is_tag "a" (self a).
Proof.
  unfold nav_keeps, href_of, is_anchor, has_attr, get_default.
  destruct (get (attrs_of (self a)) "href").
  - intros _. apply andb_true_r.
  - simpl. discriminate.
Qed.

Lemma scrape_nav_links_spec (sp : soup) :
  scrape_nav_links sp =
  match find (is_tag "nav") sp with
  | Some n =>
      map nav_entry
          (filter nav_keeps (find_all (is_tag "a") (contents_of (self n))))
  | None =>
      map nav_entry
          (filter (fun a => truthy (text_of a))
                  (firstn 8 (find_all is_anchor sp)))
  end.
Proof.
  unfold scrape_nav_links. destruct (find (is_tag "nav") sp) as [n|].
  - rewrite (fold_left_appends _ _ nav_step_appends). simpl.
    rewrite flat_map_keep. f_equal. unfold find_all.
    apply filter_under. intros a. apply nav_keeps_has_href.
  - rewrite (fold_left_appends _ _ fallback_step_appends). simpl.
    now rewrite flat_map_keep.
Qed.

Lemma nav_field (sp : soup) (target : string) :
  nav (build_data html_parser str sp target) =
  match find (is_tag "nav") sp with
  | Some n =>
      firstn 8
        (map nav_entry
           (filter nav_keeps (find_all (is_tag "a") (contents_of (self n)))))
  | None =>
      map nav_entry
          (filter (fun a => truthy (text_of a))
                  (firstn 8 (find_all is_anchor sp)))
  end.
Proof.
  unfold build_data. cbn [nav]. rewrite scrape_nav_links_spec.
  destruct (find (is_tag "nav") sp); [reflexivity|].
  apply firstn_short. rewrite length_map.
  etransitivity; [apply filter_bound|apply firstn_bound].
Qed.

Lemma nav_entry_trimmed (a : PageElement) :
  trimmed (label (nav_entry a)) /\ trimmed (href (nav_entry a)).
Proof.
  split; simpl.
  - apply get_text_trimmed.
  - apply strip_trimmed.
Qed.

(** *** Sections *)

Lemma collect_parts_spec (sibs : list node) (acc : list string) :
  collect_parts html_parser str sibs acc
  = acc ++ fragments html_parser str sibs.
Proof.
  unfold fragments. revert acc.
  induction sibs as [|sib rest IH]; intros acc; simpl.
  - now rewrite app_nil_r.
  - destruct (is_tag "h2" sib); simpl; [now rewrite app_nil_r|].
    fold (qualifies sib). destruct (qualifies sib); simpl; [|apply IH].
    destruct (truthy (sibling_text html_parser str sib)); rewrite IH.
    + now rewrite <- app_assoc.
    + reflexivity.
Qed.

Lemma section_step_appends (acc : list Sec.t) (h2 : PageElement) :
  section_step html_parser str acc h2
  = acc ++ [section_of html_parser str h2].
Proof.
  unfold section_step, section_of. now rewrite collect_parts_spec.
Qed.

Lemma scrape_sections_spec (sp : soup) :
  scrape_sections html_parser str sp =
  map (section_of html_parser str) (find_all (is_tag "h2") sp).
Proof.
  unfold scrape_sections.
  rewrite (fold_left_appends _ (fun h2 => [section_of html_parser str h2])
                             section_step_appends).
  simpl. induction (find_all (is_tag "h2") sp) as [|h l IH]; simpl;
    [reflexivity|now rewrite IH].
Qed.

Lemma sections_field (sp : soup) (target : string) :
  sections (build_data html_parser str sp target) =
  match find_all (is_tag "h2") sp with
  | [] => [Sec.mk "About" (str_or (scrape_description sp) default_body)]
  | _ :: _ =>
      firstn 6 (map (section_of html_parser str) (find_all (is_tag "h2") sp))
  end.
Proof.
  unfold build_data. cbn [sections]. rewrite scrape_sections_spec.
  destruct (find_all (is_tag "h2") sp); reflexivity.
Qed.

Lemma fragments_clean (sibs : list node) :
  Forall clean_piece (fragments html_parser str sibs).
Proof.
  unfold fragments.
  induction (filter qualifies (until_h2 sibs)) as [|sib l IH]; simpl.
  - constructor.
  - destruct (truthy (sibling_text html_parser str sib)) eqn:T; [|exact IH].
    constructor; [|exact IH]. now apply soup_get_text_clean.
Qed.

Lemma section_of_body_bound (h2 : PageElement) :
  String.length (Sec.body (section_of html_parser str h2)) <= 1200.
Proof. apply slice_to_length. Qed.

Lemma section_of_trimmed (h2 : PageElement) :
  trimmed (Sec.title (section_of html_parser str h2))
  /\ trimmed_unless_cut 1200 (Sec.body (section_of html_parser str h2)).
Proof.
  split; simpl.
  - apply get_text_trimmed.
  - apply cut_of_trimmed, join_trimmed, fragments_clean.
Qed.

(** *** Title, description and hero *)

Lemma scrape_title_trimmed (sp : soup) : trimmed_opt (scrape_title sp).
Proof.
  unfold scrape_title. destruct (find (is_tag "title") sp) as [t|]; simpl; auto.
  destruct (string_of (self t)) as [s|]; simpl; auto.
  destruct (truthy s); simpl; auto using strip_trimmed.
Qed.

Lemma scrape_description_trimmed (sp : soup) :
  trimmed_opt (scrape_description sp).
Proof.
  unfold scrape_description.
  destruct (match find (is_meta "name" "description") sp with
            | Some m => Some m
            | None => find (is_meta "property" "og:description") sp
            end) as [m|]; simpl; auto.
  destruct (truthy_opt (get (attrs_of (self m)) "content")); simpl;
    auto using strip_trimmed.
Qed.

Lemma scrape_hero_heading_spec (sp : soup) :
  scrape_hero_heading sp =
  match first_match (is_tag "h1") (descendants sp) with
  | Some (h1, _) => Some (get_text "" (self h1))
  | None => scrape_title sp
  end.
Proof.
  unfold scrape_hero_heading, scrape_h1s, find_all.
  rewrite first_match_filter.
  destruct (first_match (is_tag "h1") (descendants sp)) as [[h1 rest]|];
    reflexivity.
Qed.

Lemma scrape_hero_sub_spec (sp : soup) :
  scrape_hero_sub sp =
  match first_match (is_tag "h1") (descendants sp) with
  | Some (h1, _) =>
      if truthy (get_text "" (self h1))
      then subheading_as_specified sp
      else None
  | None => None
  end.
Proof.
  unfold scrape_hero_sub, subheading_as_specified, following_block.
  rewrite scrape_hero_heading_spec. unfold find_next.
  destruct (first_match (is_tag "h1") (descendants sp)) as [[h1 rest]|];
    simpl.
  - destruct (truthy (get_text "" (self h1))); [|reflexivity].
    destruct (first_match (name_in ["p"; "h2"; "div"]) rest) as [[e r]|];
      reflexivity.
  - destruct (truthy_opt (scrape_title sp)); reflexivity.
Qed.

(** *** Images *)

Lemma scrape_images_bound (sp : soup) :
  List.length (scrape_images sp) <= 10.
Proof. apply firstn_bound. Qed.

(** *** The bounds that hold on every page: the three caps, the
    non-empty section list, and the cap on the body of every section
    that comes from a heading. *)
Lemma caps_hold (sp : soup) (target : string) :
  let d := build_data html_parser str sp target in
  List.length (nav d) <= 8
  /\ 1 <= List.length (sections d) <= 6
  /\ List.length (images d) <= 10
  /\ (find_all (is_tag "h2") sp <> [] ->
      Forall (fun s => String.length (Sec.body s) <= 1200) (sections d)).
Proof.
  intros d. subst d. split; [|split; [|split]].
  - unfold build_data. cbn [nav]. apply firstn_bound.
  - rewrite sections_field.
    destruct (find_all (is_tag "h2") sp) as [|h l] eqn:E.
    + simpl. lia.
    + rewrite firstn_min, length_map. cbn [List.length]. lia.
  - apply scrape_images_bound.
  - intros H. rewrite sections_field.
    destruct (find_all (is_tag "h2") sp) as [|h l]; [congruence|].
    apply Forall_firstn, Forall_map, Forall_forall.
    intros x _. apply section_of_body_bound.
Qed.

End HandlerFacts.

(* ------------------------------------------------------------------ *)
(** ** The properties of the specification *)

Lemma replicate_length (n : nat) (c : ascii) :
  String.length (replicate n c) = n.
Proof. induction n as [|n IH]; simpl; [reflexivity|now rewrite IH]. Qed.

Lemma trimmed_unless_cut_of_trimmed (n : nat) (s : string) :
  trimmed s -> trimmed_unless_cut n s.
Proof.
  intros H. split; [|intros _; exact H].
  apply lstrip_fixed. now destruct (trimmed_clean s H).
Qed.

Lemma str_or_trimmed (o : option string) (b : string) :
  trimmed_opt o -> trimmed b -> trimmed (str_or o b).
Proof.
  destruct o as [s|]; simpl; auto. destruct (truthy s); auto.
Qed.

(** C1, on the code.  The caps on [nav], [sections] and [images] hold on
    every page and so does the cap on the body of a section that comes from
    a heading ([caps_hold]); the body of the synthetic section is the
    description as it is.  On [long_description_page], a page without
    second-level heading whose description has 1201 characters, the only
    section is the synthetic one and its body has 1201 characters, so the
    document is not within the bounds. *)
Theorem fallback_body_exceeds_cap :
  map (fun s => (Sec.title s, String.length (Sec.body s)))
      (sections (normalize HtmlParser.parse HtmlParser.str
                           long_description_page default_url))
  = [("About", 1201)]
  /\ ~ within_bounds (normalize HtmlParser.parse HtmlParser.str
                                long_description_page default_url).
Proof.
  assert (E : sections (normalize HtmlParser.parse HtmlParser.str
                                  long_description_page default_url)
              = [Sec.mk "About" (replicate 1201 "x")])
    by (vm_compute; reflexivity).
  split.
  - rewrite E. cbn [map Sec.title Sec.body]. now rewrite replicate_length.
  - intros (_ & _ & _ & H). rewrite E in H.
    apply Forall_inv in H. cbn [Sec.body] in H.
    rewrite replicate_length in H. lia.
Qed.

(** C2, the scenario as the specification gives it, fails: on [acme_page]
    the handler does not return the document whose navigation holds the
    [About] link alone. *)
Lemma acme_scenario_nav_differs :
  normalize HtmlParser.parse HtmlParser.str acme_page default_url
  <> acme_document default_url [mkNavLink "About" "/about"].
Proof.
  intros H. apply (f_equal nav) in H. vm_compute in H. discriminate H.
Qed.

(** C2, amended.  On [acme_page] the handler returns title [Acme],
    description [We build things], hero [Welcome] / [Leading platform.],
    the sections [Services] and [Contact], no image, and a navigation of
    two links: [About] and also [Jump], whose text does not begin with
    [#] (the handler tests the text of an anchor, not its href). *)
Theorem acme_scenario_normalized (src : string) :
  normalize HtmlParser.parse HtmlParser.str acme_page src
  = acme_document src [mkNavLink "About" "/about"; mkNavLink "Jump" "#top"].
Proof. vm_compute. reflexivity. Qed.

(** C3, as the specification gives it, fails: no size ceiling makes the
    call fail.  Whatever the ceiling, some markup longer than it is turned
    into a document. *)
Lemma no_size_ceiling :
  ~ exists ceiling : nat,
      forall raw : string,
        ceiling < String.length raw ->
        forall d : Data,
          scrape_site (fun _ => inr raw) HtmlParser.parse HtmlParser.str None
          <> inr d.
Proof.
  intros [ceiling H].
  apply (H (replicate (S ceiling) "x")) with
    (d := normalize HtmlParser.parse HtmlParser.str
                    (replicate (S ceiling) "x") default_url).
  - rewrite replicate_length. lia.
  - reflexivity.
Qed.

Lemma collect_parts_raising_agrees
      (try_parser : string -> string + soup) (str : node -> string)
      (sibs : list node) :
  (forall sib, In sib (filter qualifies (until_h2 sibs)) ->
               exists t, try_parser (str sib) = inr t) ->
  forall acc,
    collect_parts_raising try_parser str sibs acc
    = inr (collect_parts (accepted try_parser) str sibs acc).
Proof.
  induction sibs as [|sib rest IH]; intros A acc; [reflexivity|].
  cbn [collect_parts_raising collect_parts]. cbn [until_h2] in A.
  destruct (is_tag "h2" sib); [reflexivity|].
  cbn [filter] in A.
  change (name_in ["p"; "h3"; "ul"; "ol"; "div"] sib) with (qualifies sib).
  destruct (qualifies sib) eqn:Q.
  - destruct (A sib (or_introl eq_refl)) as [t T].
    unfold sibling_text_raising, sibling_text, BeautifulSoup, accepted.
    rewrite T.
    destruct (truthy (soup_get_text " " t));
      apply IH; intros s Hs; apply A; now right.
  - apply IH. exact A.
Qed.

Lemma sections_loop_raising_agrees
      (try_parser : string -> string + soup) (str : node -> string)
      (h2s : list PageElement) :
  (forall h2 sib,
      In h2 h2s ->
      In sib (filter qualifies (until_h2 (next_siblings h2))) ->
      exists t, try_parser (str sib) = inr t) ->
  forall acc,
    sections_loop_raising try_parser str h2s acc
    = inr (fold_left (section_step (accepted try_parser) str) h2s acc).
Proof.
  induction h2s as [|h2 rest IH]; intros A acc; simpl; [reflexivity|].
  unfold section_step_raising, section_step.
  rewrite collect_parts_raising_agrees
    by (intros sib Hs; apply (A h2 sib); [now left|exact Hs]).
  apply IH. intros h sib Hh. apply A. now right.
Qed.

Lemma build_data_raising_agrees
      (try_parser : string -> string + soup) (str : node -> string)
      (sp : soup) (target : string) :
  siblings_accepted try_parser str sp ->
  build_data_raising try_parser str sp target
  = inr (build_data (accepted try_parser) str sp target).
Proof.
  intros A. unfold build_data_raising, scrape_sections_raising.
  rewrite sections_loop_raising_agrees by exact A.
  reflexivity.
Qed.

(** The two handlers agree under a parser that accepts every markup. *)
Lemma scrape_site_raising_total
      (requests_get : string -> string + string)
      (html_parser : string -> soup) (str : node -> string)
      (url : option string) :
  scrape_site_raising requests_get (fun m => inr (html_parser m)) str url
  = match scrape_site requests_get html_parser str url with
    | inl e => inl (FetchFailed e)
    | inr d => inr d
    end.
Proof.
  unfold scrape_site_raising, scrape_site, normalize, BeautifulSoup.
  destruct (requests_get (str_or url default_url)) as [e|raw]; [reflexivity|].
  rewrite build_data_raising_agrees.
  - reflexivity.
  - intros h2 sib _ _. eexists. reflexivity.
Qed.

(** C3, amended.  The handler has no size ceiling and no failure for
    large markup: the length of the markup is never tested.  Whatever the
    length, once the fetch has returned the markup and the parser accepts
    it, the page and the siblings that the sections write back to markup,
    the call returns the document normalized from it. *)
Theorem scrape_site_reads_any_length
        (requests_get : string -> string + string)
        (try_parser : string -> string + soup) (str : node -> string)
        (url : option string) (raw : string) (sp : soup) :
  requests_get (str_or url default_url) = inr raw ->
  try_parser raw = inr sp ->
  siblings_accepted try_parser str sp ->
  scrape_site_raising requests_get try_parser str url
  = inr (build_data (accepted try_parser) str sp (str_or url default_url)).
Proof.
  intros F P A. unfold scrape_site_raising. rewrite F, P.
  now rewrite (build_data_raising_agrees try_parser str sp _ A).
Qed.

(** A page of more than 5000 characters is normalized like any other. *)
Lemma scrape_site_reads_any_length_witness :
  5000 < String.length padded_acme_page
  /\ scrape_site_raising (fun _ => inr padded_acme_page) accept_all
                         HtmlParser.str None
     = inr (acme_document default_url
              [mkNavLink "About" "/about"; mkNavLink "Jump" "#top"]).
Proof.
  split; [apply Nat.ltb_lt; vm_compute; reflexivity|].
  rewrite (scrape_site_reads_any_length
             (fun _ => inr padded_acme_page) accept_all HtmlParser.str None
             padded_acme_page (HtmlParser.parse padded_acme_page)
             eq_refl eq_refl).
  - vm_compute. reflexivity.
  - intros h2 sib _ _. eexists. reflexivity.
Defined.

(** C4, as the specification gives it, fails in two places.  A sibling of
    the five kinds whose text is empty gives no fragment, so no empty line
    stands in the body ([empty_block_page]); and a description that is the
    empty string is passed over for the default sentence
    ([blank_description_page]). *)
Lemma sections_skip_empty_text :
  (sections (normalize HtmlParser.parse HtmlParser.str
                       empty_block_page default_url)
   = [Sec.mk "Topic" ("One" ++ newline ++ "Two")%string]
   /\ sections_as_specified (HtmlParser.parse empty_block_page) None
      = [Sec.mk "Topic" ("One" ++ newline ++ newline ++ "Two")%string])
  /\ (description (normalize HtmlParser.parse HtmlParser.str
                             blank_description_page default_url)
      = Some ""
      /\ sections (normalize HtmlParser.parse HtmlParser.str
                             blank_description_page default_url)
         = [Sec.mk "About" default_body]
      /\ sections_as_specified (HtmlParser.parse blank_description_page)
                               (Some "")
         = [Sec.mk "About" ""]).
Proof. repeat split; vm_compute; reflexivity. Qed.

Lemma fragments_from_text
      (html_parser : string -> soup) (str : node -> string)
      (sibs : list node) :
  (forall sib, In sib (filter qualifies (until_h2 sibs)) ->
               sibling_text html_parser str sib = own_text sib) ->
  fragments html_parser str sibs
  = filter truthy (map own_text (filter qualifies (until_h2 sibs))).
Proof.
  intros H. unfold fragments. f_equal. apply map_ext_in. exact H.
Qed.

(** C4, amended.  On a page where writing a walked sibling to markup and
    parsing it again keeps its text, the sections are the first six of one
    section per second-level heading, in document order.  The title of a
    section is the text of its heading; its body joins with a newline the
    texts that are not empty of the siblings that follow the heading up to
    the next [h2] sibling and are [p], [h3], [ul], [ol] or [div], and is
    cut at 1200 characters.  Without any second-level heading the list is
    the single section [About], whose body is the description when one
    was found and is not empty, and the default sentence otherwise. *)
Theorem sections_from_sibling_text
        (html_parser : string -> soup) (str : node -> string)
        (sp : soup) (target : string) :
  reparse_keeps_text html_parser str sp ->
  sections (build_data html_parser str sp target) =
  match find_all (is_tag "h2") sp with
  | [] =>
      [Sec.mk "About"
              match description (build_data html_parser str sp target) with
              | Some (String c rest) => String c rest
              | _ => default_body
              end]
  | h2s => firstn 6 (map section_from_text h2s)
  end.
Proof.
  intros K. rewrite sections_field.
  destruct (find_all (is_tag "h2") sp) as [|h l] eqn:E.
  - unfold build_data. cbn [description].
    destruct (scrape_description sp) as [[|c rest]|]; reflexivity.
  - f_equal. apply map_ext_in. intros h2 Hh.
    unfold section_of, section_from_text.
    rewrite (fragments_from_text html_parser str (next_siblings h2));
      [reflexivity|].
    intros sib Hs. apply (K h2 sib); [rewrite E; exact Hh|exact Hs].
Qed.

(** On the page of the first scenario the model parser reads back the
    text of every walked sibling, and the sections are built from the
    text of the paragraphs. *)
Lemma sections_from_sibling_text_witness :
  reparse_keeps_text HtmlParser.parse HtmlParser.str
                     (HtmlParser.parse acme_page)
  /\ sections (normalize HtmlParser.parse HtmlParser.str
                         acme_page default_url)
     = [Sec.mk "Services" "We do X."; Sec.mk "Contact" "Reach us."].
Proof.
  assert (K : reparse_keeps_text HtmlParser.parse HtmlParser.str
                                 (HtmlParser.parse acme_page)).
  { assert (B : forallb
                  (fun h2 =>
                     forallb
                       (fun sib =>
                          String.eqb
                            (sibling_text HtmlParser.parse HtmlParser.str sib)
                            (own_text sib))
                       (filter qualifies (until_h2 (next_siblings h2))))
                  (find_all (is_tag "h2") (HtmlParser.parse acme_page))
                = true) by (vm_compute; reflexivity).
    intros h2 sib Hh Hs.
    rewrite forallb_forall in B. specialize (B h2 Hh).
    rewrite forallb_forall in B. specialize (B sib Hs).
    apply String.eqb_eq. exact B. }
  split; [exact K|].
  unfold normalize, BeautifulSoup.
  rewrite (sections_from_sibling_text _ _ _ default_url K).
  vm_compute. reflexivity.
Defined.

(** C5, as the specification gives it, fails on the fallback path.  On
    [nine_anchors_page] (no [nav]) the handler looks at the first eight
    anchors only and keeps the one with text, whose href is empty; the
    specification's list is the ninth anchor. *)
Lemma nav_fallback_differs :
  nav (normalize HtmlParser.parse HtmlParser.str nine_anchors_page default_url)
  = [mkNavLink "Home" ""]
  /\ nav_as_specified (HtmlParser.parse nine_anchors_page)
     = [mkNavLink "About" "/about"].
Proof. split; vm_compute; reflexivity. Qed.

(** C5, amended.  With a [nav] element (the first one), the navigation is
    the first eight of the anchors inside it that have a non-empty trimmed
    href, a non-empty text and a text not beginning with [#], in document
    order.  Without one, the handler takes the first eight anchors of the
    document that carry an href attribute, whatever its value, and keeps
    those of them whose text is not empty.  Each entry holds the trimmed
    text and the trimmed href. *)
Theorem nav_links_built
        (html_parser : string -> soup) (str : node -> string)
        (sp : soup) (target : string) :
  nav (build_data html_parser str sp target) =
  match find (is_tag "nav") sp with
  | Some n =>
      firstn 8
        (map nav_entry
           (filter nav_keeps (find_all (is_tag "a") (contents_of (self n)))))
  | None =>
      map nav_entry
          (filter (fun a => truthy (text_of a))
                  (firstn 8 (find_all is_anchor sp)))
  end.
Proof. apply nav_field. Qed.

(** C6, as the specification gives it, fails: on [empty_h1_page] a first
    [h1] exists and a paragraph follows it, yet the subheading is absent,
    because the heading has no text. *)
Lemma subheading_needs_heading_text :
  hero (normalize HtmlParser.parse HtmlParser.str empty_h1_page default_url)
  = {| heading := Some ""; subheading := None |}
  /\ subheading_as_specified (HtmlParser.parse empty_h1_page)
     = Some "Tagline".
Proof. split; vm_compute; reflexivity. Qed.

(** C6, amended.  The hero heading is the text of the first [h1] when one
    exists and the title otherwise (absent when there is none).  The
    subheading is computed exactly when a first [h1] exists and its text is
    not empty: it is then the text, cut at 300 characters, of the nearest
    element after that [h1] in document order that is a [p], [h2] or
    [div], and absent when there is no such element. *)
Theorem hero_built
        (html_parser : string -> soup) (str : node -> string)
        (sp : soup) (target : string) :
  let d := build_data html_parser str sp target in
  match first_match (is_tag "h1") (descendants sp) with
  | Some (h1, _) =>
      heading (hero d) = Some (get_text "" (self h1))
      /\ subheading (hero d) =
         if truthy (get_text "" (self h1))
         then subheading_as_specified sp
         else None
  | None => heading (hero d) = title d /\ subheading (hero d) = None
  end.
Proof.
  unfold build_data. cbn [hero heading subheading title].
  rewrite scrape_hero_heading_spec, scrape_hero_sub_spec.
  destruct (first_match (is_tag "h1") (descendants sp)) as [[h1 rest]|];
    split; reflexivity.
Qed.

(** C7, on the code.  The handler tests the string of the title for
    emptiness before it strips it: on [blank_title_page], whose title holds
    one blank, the title of the document is the empty string, not absent. *)
Theorem blank_title_is_empty_string :
  title (normalize HtmlParser.parse HtmlParser.str blank_title_page default_url)
  = Some "".
Proof. vm_compute. reflexivity. Qed.

(** C8, as the specification gives it, fails: the [src] and [alt] of an
    image are the attribute values as written ([spaced_image_page]), and a
    subheading cut at 300 characters can end in a blank
    ([cut_at_blank_page]). *)
Lemma image_fields_not_trimmed :
  (images (normalize HtmlParser.parse HtmlParser.str
                     spaced_image_page default_url)
   = [mkImage " logo.png " " Logo "]
   /\ ~ trimmed " logo.png " /\ ~ trimmed " Logo ")
  /\ (exists s,
         subheading (hero (normalize HtmlParser.parse HtmlParser.str
                                     cut_at_blank_page default_url))
         = Some s
         /\ ~ trimmed s).
Proof.
  split.
  - split; [vm_compute; reflexivity|].
    split; intros H; vm_compute in H; discriminate H.
  - eexists. split; [vm_compute; reflexivity|].
    intros H. vm_compute in H. discriminate H.
Qed.

(** C8, amended.  The title, the description, the hero heading, the label
    and href of every nav entry and the title of every section are
    trimmed.  The hero subheading and the body of every section are
    trimmed texts cut at 300 and 1200 characters: they never start with
    whitespace, and they are trimmed whenever they are shorter than the
    cut.  Nothing is stated for the [src] and [alt] of images. *)
Theorem text_fields_trimmed
        (html_parser : string -> soup) (str : node -> string)
        (sp : soup) (target : string) :
  let d := build_data html_parser str sp target in
  trimmed_opt (title d)
  /\ trimmed_opt (description d)
  /\ trimmed_opt (heading (hero d))
  /\ match subheading (hero d) with
     | Some s => trimmed_unless_cut 300 s
     | None => True
     end
  /\ Forall (fun l => trimmed (label l) /\ trimmed (href l)) (nav d)
  /\ Forall (fun s => trimmed (Sec.title s)
                      /\ trimmed_unless_cut 1200 (Sec.body s))
            (sections d).
Proof.
  intros d. subst d.
  split; [apply scrape_title_trimmed|].
  split; [apply scrape_description_trimmed|].
  split; [|split; [|split]].
  - unfold build_data. cbn [hero heading].
    rewrite scrape_hero_heading_spec.
    destruct (first_match (is_tag "h1") (descendants sp)) as [[h1 rest]|].
    + apply get_text_trimmed.
    + apply scrape_title_trimmed.
  - unfold build_data. cbn [hero subheading].
    rewrite scrape_hero_sub_spec.
    destruct (first_match (is_tag "h1") (descendants sp)) as [[h1 rest]|];
      [|exact I].
    destruct (truthy (get_text "" (self h1))); [|exact I].
    unfold subheading_as_specified.
    destruct (following_block sp) as [e|]; [|exact I].
    apply cut_of_trimmed, get_text_trimmed.
  - rewrite nav_field.
    destruct (find (is_tag "nav") sp) as [n|];
      [apply Forall_firstn|];
      apply Forall_map, Forall_forall; intros a _; apply nav_entry_trimmed.
  - rewrite sections_field.
    destruct (find_all (is_tag "h2") sp) as [|h l].
    + constructor; [|constructor]. split.
      * reflexivity.
      * apply trimmed_unless_cut_of_trimmed, str_or_trimmed.
        -- apply scrape_description_trimmed.
        -- reflexivity.
    + apply Forall_firstn, Forall_map, Forall_forall.
      intros h2 _. apply section_of_trimmed.
Qed.



(* ------------------------------------------------------------------ *)
(** ** Further properties of the handler *)

Lemma image_step_appends (acc : list Image) (img : PageElement) :
  image_step acc img = acc ++ (if has_src img then [image_entry img] else []).
Proof.
  unfold image_step, has_src, image_entry, get_default.
  destruct (get (attrs_of (self img)) "src") as [s|]; simpl.
  - destruct (truthy s); now rewrite ?app_nil_r.
  - now rewrite app_nil_r.
Qed.

(** The images are the first ten [img] elements with a non-empty [src], in
    document order, each with its [alt] or the empty string when it has
    none. *)
Theorem images_built
        (html_parser : string -> soup) (str : node -> string)
        (sp : soup) (target : string) :
  images (build_data html_parser str sp target)
  = firstn 10 (map image_entry (filter has_src (find_all (is_tag "img") sp))).
Proof.
  unfold build_data. cbn [images]. unfold scrape_images.
  rewrite (fold_left_appends _ _ image_step_appends). simpl.
  now rewrite flat_map_keep.
Qed.

(** The caps on [nav], [sections] and [images] hold on every page, the
    section list is never empty, and on a page with a second-level heading
    every section body has at most 1200 characters. *)
Theorem caps_on_every_page
        (html_parser : string -> soup) (str : node -> string)
        (sp : soup) (target : string) :
  let d := build_data html_parser str sp target in
  List.length (nav d) <= 8
  /\ 1 <= List.length (sections d) <= 6
  /\ List.length (images d) <= 10
  /\ (find_all (is_tag "h2") sp <> [] ->
      Forall (fun s => String.length (Sec.body s) <= 1200) (sections d)).
Proof. apply caps_hold. Qed.

(** Without a title element and without a first-level heading the hero
    heading is absent, and so is the subheading. *)
Theorem hero_absent
        (html_parser : string -> soup) (str : node -> string)
        (sp : soup) (target : string) :
  find (is_tag "title") sp = None ->
  find_all (is_tag "h1") sp = [] ->
  hero (build_data html_parser str sp target)
  = {| heading := None; subheading := None |}.
Proof.
  intros T H. unfold build_data. cbn [hero].
  rewrite scrape_hero_sub_spec, scrape_hero_heading_spec.
  unfold find_all in H. rewrite first_match_filter in H.
  destruct (first_match (is_tag "h1") (descendants sp)) as [[h1 rest]|];
    [discriminate H|].
  unfold scrape_title. now rewrite T.
Qed.

Lemma hero_absent_witness :
  find (is_tag "title") (HtmlParser.parse plain_page) = None
  /\ find_all (is_tag "h1") (HtmlParser.parse plain_page) = []
  /\ hero (normalize HtmlParser.parse HtmlParser.str plain_page default_url)
     = {| heading := None; subheading := None |}.
Proof.
  split; [vm_compute; reflexivity|].
  split; [vm_compute; reflexivity|].
  apply hero_absent; vm_compute; reflexivity.
Defined.

(** With a [nav] element, no entry of the navigation has a label that
    begins with [#], and every entry has a label and an href that are not
    empty. *)
Theorem nav_drops_markers
        (html_parser : string -> soup) (str : node -> string)
        (sp : soup) (target : string) :
  find (is_tag "nav") sp <> None ->
  Forall (fun l => startswith (label l) "#" = false
                   /\ truthy (label l) = true /\ truthy (href l) = true)
         (nav (build_data html_parser str sp target)).
Proof.
  intros H. rewrite nav_field.
  destruct (find (is_tag "nav") sp) as [n|]; [|congruence].
  apply Forall_firstn, Forall_map, Forall_forall.
  intros a Ha. apply filter_In in Ha. destruct Ha as [_ K].
  unfold nav_keeps in K.
  apply andb_true_iff in K. destruct K as [K K3].
  apply andb_true_iff in K. destruct K as [K1 K2].
  apply negb_true_iff in K3. cbn [label href nav_entry]. auto.
Qed.

Lemma nav_drops_markers_witness :
  find (is_tag "nav") (HtmlParser.parse marker_page) <> None
  /\ nav (normalize HtmlParser.parse HtmlParser.str marker_page default_url)
     = [mkNavLink "Docs" "/docs"]
  /\ Forall (fun l => startswith (label l) "#" = false
                      /\ truthy (label l) = true /\ truthy (href l) = true)
            (nav (normalize HtmlParser.parse HtmlParser.str
                            marker_page default_url)).
Proof.
  assert (H : find (is_tag "nav") (HtmlParser.parse marker_page) <> None)
    by (vm_compute; discriminate).
  split; [exact H|].
  split; [vm_compute; reflexivity|].
  apply nav_drops_markers. exact H.
Defined.

(** The second scenario of the specification: the empty page has no title,
    no description, no hero, no link and no image, and the single section
    [About] with the default sentence. *)
Theorem empty_page_normalized (src : string) :
  normalize HtmlParser.parse HtmlParser.str empty_page src
  = {| source := src;
       title := None;
       description := None;
       hero := {| heading := None; subheading := None |};
       nav := [];
       sections := [Sec.mk "About" default_body];
       images := [] |}.
Proof. vm_compute. reflexivity. Qed.

(** On the page of the first scenario, writing an element back to markup
    and parsing it again gives the element itself, so the text a section
    takes from a sibling is the text of that sibling. *)
Theorem acme_reparsed :
  map (fun e => HtmlParser.parse (HtmlParser.str (self e)))
      (descendants (HtmlParser.parse acme_page))
  = map (fun e => [self e]) (descendants (HtmlParser.parse acme_page)).
Proof. vm_compute. reflexivity. Qed.

(* ------------------------------------------------------------------ *)
(** ** Properties of the database check *)

(** The response in closed form: one run of the computation for every
    shape of the world. *)
Lemma test_database_response (w : World) :
  test_database w
  = inr {| backend := "✅ Running";
           database := database_status w;
           database_url := Some (env_flag w "DATABASE_URL");
           database_name := Some (env_flag w "DATABASE_NAME");
           connection_status :=
             if connected w then "Connected" else "Not Connected";
           collections := firstn 10 (listed w) |}.
Proof.
  destruct w as [[[[] m]|[[nm [[[] m]|l]]|]] env];
    try destruct nm as [|v|[[] m0]]; reflexivity.
Qed.

Lemma env_flag_values (w : World) (key : string) :
  env_flag w key = "✅ Set" \/ env_flag w key = "❌ Not Set".
Proof.
  unfold env_flag. destruct (truthy_opt (getenv w key)); auto.
Qed.

Lemma failure_text_fresh (e : Exc) :
  failure_text e <> "❌ Not Available" /\ failure_text e <> "✅ Available".
Proof.
  unfold failure_text. destruct (is_import_error e); cbn [append];
    split; discriminate.
Qed.

(** Whatever the database module gives or raises within [Exception] (the
    exceptions of this model), the check answers: none of these exceptions
    escapes, the backend is reported as running, and the two fields named
    after environment variables only tell whether the variable is set and
    not empty; what the probe wrote into them before is overwritten. *)
Theorem database_check_always_answers (w : World) :
  exists r,
    test_database w = inr r
    /\ backend r = "✅ Running"
    /\ database_url r
       = Some (if truthy_opt (getenv w "DATABASE_URL")
               then "✅ Set" else "❌ Not Set")
    /\ database_name r
       = Some (if truthy_opt (getenv w "DATABASE_NAME")
               then "✅ Set" else "❌ Not Set").
Proof.
  eexists. split; [apply test_database_response|].
  repeat split.
Qed.

(** The connection status is [Connected] exactly when the import gave an
    object and reading its name went through, also when listing the
    collections then fails; in every other world it is [Not Connected]. *)
Theorem connection_status_follows_name
        (w : World) :
  match test_database w with
  | inr r =>
      (connection_status r = "Connected" <-> connected w = true)
      /\ (connection_status r = "Not Connected" <-> connected w = false)
  | inl _ => False
  end.
Proof.
  rewrite test_database_response. cbn [connection_status].
  destruct (connected w); split; split; intros H;
    try reflexivity; discriminate H.
Qed.

(** The collections are the first ten that were listed; the list is
    empty unless the listing went through, and a non-empty list comes
    with the status of a working connection. *)
Theorem collections_capped_and_guarded (w : World) :
  match test_database w with
  | inr r =>
      collections r = firstn 10 (listed w)
      /\ List.length (collections r) <= 10
      /\ (collections r <> [] ->
          database r = "✅ Connected & Working"
          /\ connection_status r = "Connected")
  | inl _ => False
  end.
Proof.
  rewrite test_database_response.
  cbn [collections database connection_status].
  split; [reflexivity|]. split; [apply firstn_bound|].
  unfold listed, connected, database_status, name_read.
  destruct (import_db w) as [e|[db|]]; try (intros H; now elim H).
  destruct (db_name db); try (intros H; now elim H);
    destruct (list_collection_names db); intros H;
    try (now elim H); split; reflexivity.
Qed.

(** The database text is the one of the world's case: the fixed texts for
    a missing module, an uninitialised or a working database, and the
    texts that carry the first 50 characters of an exception.  The text
    the dictionary starts with and the text written before the name is
    read are overwritten on every path. *)
Theorem database_status_settled (w : World) :
  match test_database w with
  | inr r =>
      database r = database_status w
      /\ database r <> "❌ Not Available"
      /\ database r <> "✅ Available"
  | inl _ => False
  end.
Proof.
  rewrite test_database_response. cbn [database].
  split; [reflexivity|].
  unfold database_status.
  destruct (import_db w) as [e|[db|]]; try apply failure_text_fresh.
  - destruct (db_name db); try apply failure_text_fresh;
      destruct (list_collection_names db); cbn [append]; split; discriminate.
  - split; discriminate.
Qed.

(* ------------------------------------------------------------------ *)
(** ** Further properties of the page handler *)

Lemma images_field
      (html_parser : string -> soup) (str : node -> string)
      (sp : soup) (target : string) :
  images (build_data html_parser str sp target)
  = firstn 10 (map image_entry (filter has_src (find_all (is_tag "img") sp))).
Proof.
  unfold build_data. cbn [images]. unfold scrape_images.
  rewrite (fold_left_appends _ _ image_step_appends). simpl.
  now rewrite flat_map_keep.
Qed.

(** A description element without content silences the fallback: when the
    page has a [meta] named [description] whose content is missing or
    empty, the description is absent, whatever an [og:description]
    holds. *)
Theorem empty_description_blocks_fallback
        (html_parser : string -> soup) (str : node -> string)
        (sp : soup) (target : string) (m : PageElement) :
  find (is_meta "name" "description") sp = Some m ->
  truthy_opt (get (attrs_of (self m)) "content") = false ->
  description (build_data html_parser str sp target) = None.
Proof.
  intros F C. unfold build_data. cbn [description].
  unfold scrape_description. rewrite F, C. reflexivity.
Qed.

Lemma empty_description_blocks_fallback_witness :
  (exists m,
      find (is_meta "property" "og:description")
           (HtmlParser.parse two_descriptions_page) = Some m
      /\ content_of m = Some "From the graph")
  /\ description (normalize HtmlParser.parse HtmlParser.str
                            two_descriptions_page default_url) = None.
Proof.
  split.
  - eexists. split; vm_compute; reflexivity.
  - unfold normalize, BeautifulSoup.
    eapply empty_description_blocks_fallback; vm_compute; reflexivity.
Defined.

(** With a description element that has content, or with none and an
    [og:description], the description is the stripped content of the
    first element of the kind that is there. *)
Theorem description_from_first_meta
        (html_parser : string -> soup) (str : node -> string)
        (sp : soup) (target : string) :
  description (build_data html_parser str sp target) =
  match find (is_meta "name" "description") sp with
  | Some m => content_of m
  | None =>
      match find (is_meta "property" "og:description") sp with
      | Some m => content_of m
      | None => None
      end
  end.
Proof.
  unfold build_data. cbn [description]. unfold scrape_description, content_of.
  destruct (find (is_meta "name" "description") sp) as [m|];
    [|destruct (find (is_meta "property" "og:description") sp) as [m|];
      [|reflexivity]];
    unfold getitem, get_default;
    destruct (get (attrs_of (self m)) "content") as [[|c rest]|]; reflexivity.
Qed.

(** A subheading never stands alone and never exceeds its cut: when the
    hero has a subheading, it has at most 300 characters, the page has a
    first-level heading and the hero heading is its text, which is not
    empty. *)
Theorem subheading_needs_heading
        (html_parser : string -> soup) (str : node -> string)
        (sp : soup) (target : string) :
  let d := build_data html_parser str sp target in
  match subheading (hero d) with
  | Some s =>
      String.length s <= 300
      /\ exists h1,
           find (is_tag "h1") sp = Some h1
           /\ heading (hero d) = Some (get_text "" (self h1))
           /\ truthy (get_text "" (self h1)) = true
  | None => True
  end.
Proof.
  unfold build_data. cbn [hero heading subheading].
  rewrite scrape_hero_heading_spec, scrape_hero_sub_spec. unfold find.
  destruct (first_match (is_tag "h1") (descendants sp)) as [[h1 rest]|];
    [|exact I].
  destruct (truthy (get_text "" (self h1))) eqn:T; [|exact I].
  unfold subheading_as_specified.
  destruct (following_block sp) as [e|]; [|exact I].
  cbn [option_map]. split; [apply slice_to_length|].
  exists h1. repeat split. exact T.
Qed.

(** No entry of the navigation has an empty label and no image an empty
    [src], on either navigation path. *)
Theorem entries_never_empty
        (html_parser : string -> soup) (str : node -> string)
        (sp : soup) (target : string) :
  let d := build_data html_parser str sp target in
  Forall (fun l => truthy (label l) = true) (nav d)
  /\ Forall (fun i => truthy (src i) = true) (images d).
Proof.
  intros d. subst d. split.
  - rewrite nav_field.
    destruct (find (is_tag "nav") sp) as [n|];
      [apply Forall_firstn|];
      apply Forall_map, Forall_forall; intros a Ha;
      apply filter_In in Ha; destruct Ha as [_ K]; cbn [label nav_entry].
    + unfold nav_keeps in K.
      apply andb_true_iff in K. destruct K as [K _].
      apply andb_true_iff in K. now destruct K.
    + exact K.
  - rewrite images_field.
    apply Forall_firstn, Forall_map, Forall_forall. intros i Hi.
    apply filter_In in Hi. destruct Hi as [_ K].
    unfold has_src in K. unfold image_entry, get_default. cbn [src].
    destruct (get (attrs_of (self i)) "src"); [exact K|discriminate K].
Qed.

(** The walk after a heading ends at the next [h2] sibling: what follows
    that sibling has no part in the section. *)
Theorem section_walk_stops
        (html_parser : string -> soup) (str : node -> string)
        (before after : list node) (x : node) (acc : list string) :
  is_tag "h2" x = true ->
  collect_parts html_parser str (before ++ x :: after) acc
  = collect_parts html_parser str before acc.
Proof.
  intros H. revert acc.
  induction before as [|b before IH]; intros acc; simpl.
  - now rewrite H.
  - destruct (is_tag "h2" b); [reflexivity|].
    destruct (name_in ["p"; "h3"; "ul"; "ol"; "div"] b); [|apply IH].
    destruct (truthy (sibling_text html_parser str b)); apply IH.
Qed.

Lemma section_walk_stops_witness :
  is_tag "h2" (Tag "h2" [] [NavigableString "Next"]) = true
  /\ collect_parts HtmlParser.parse HtmlParser.str mixed_siblings []
     = collect_parts HtmlParser.parse HtmlParser.str
                     (firstn 4 mixed_siblings) [].
Proof.
  split; [reflexivity|].
  apply (section_walk_stops HtmlParser.parse HtmlParser.str
           (firstn 4 mixed_siblings)
           [Tag "p" [] [NavigableString "Three"]]
           (Tag "h2" [] [NavigableString "Next"]) []).
  reflexivity.
Defined.

(** The walk passes over every sibling that is neither an [h2] nor one of
    [p], [h3], [ul], [ol], [div]: bare text, comments, tables, spans and
    the like leave the section as it is without them. *)
Theorem section_walk_skips
        (html_parser : string -> soup) (str : node -> string)
        (before after : list node) (x : node) (acc : list string) :
  is_tag "h2" x = false ->
  name_in ["p"; "h3"; "ul"; "ol"; "div"] x = false ->
  collect_parts html_parser str (before ++ x :: after) acc
  = collect_parts html_parser str (before ++ after) acc.
Proof.
  intros H Q. revert acc.
  induction before as [|b before IH]; intros acc; simpl.
  - now rewrite H, Q.
  - destruct (is_tag "h2" b); [reflexivity|].
    destruct (name_in ["p"; "h3"; "ul"; "ol"; "div"] b); [|apply IH].
    destruct (truthy (sibling_text html_parser str b)); apply IH.
Qed.

Lemma section_walk_skips_witness :
  collect_parts HtmlParser.parse HtmlParser.str mixed_siblings []
  = collect_parts HtmlParser.parse HtmlParser.str
                  (Tag "p" [] [NavigableString "One"]
                   :: skipn 2 mixed_siblings) [].
Proof.
  apply (section_walk_skips HtmlParser.parse HtmlParser.str
           [Tag "p" [] [NavigableString "One"]]
           (skipn 2 mixed_siblings)
           (NavigableString "loose text") []); reflexivity.
Defined.

(** A [nav] element switches the fallback off: every entry of the
    navigation then comes from an anchor inside the first [nav], and a
    [nav] without anchors gives an empty navigation, whatever anchors the
    rest of the page has. *)
Theorem nav_element_disables_fallback
        (html_parser : string -> soup) (str : node -> string)
        (sp : soup) (target : string) (n : PageElement) :
  find (is_tag "nav") sp = Some n ->
  Forall (fun l =>
            exists a,
              In a (find_all (is_tag "a") (contents_of (self n)))
              /\ l = nav_entry a)
         (nav (build_data html_parser str sp target))
  /\ (find_all (is_tag "a") (contents_of (self n)) = [] ->
      nav (build_data html_parser str sp target) = []).
Proof.
  intros F. rewrite nav_field, F. split.
  - apply Forall_firstn, Forall_map, Forall_forall. intros a Ha.
    apply filter_In in Ha. destruct Ha as [Ha _]. now exists a.
  - intros E. rewrite E. reflexivity.
Qed.

Lemma nav_element_disables_fallback_witness :
  find_all is_anchor (HtmlParser.parse empty_nav_page) <> []
  /\ nav (normalize HtmlParser.parse HtmlParser.str
                    empty_nav_page default_url) = [].
Proof.
  split; [vm_compute; discriminate|].
  unfold normalize, BeautifulSoup.
  eapply nav_element_disables_fallback; vm_compute; reflexivity.
Defined.

(** The document returned is the one of the address that was fetched: its
    source is the url of the call, or the default address when the url is
    missing or empty, it is never empty, and the document is the
    normalization of what the fetch returned for it. *)
Theorem document_matches_its_source
        (requests_get : string -> string + string)
        (html_parser : string -> soup) (str : node -> string)
        (url : option string) (d : Data) :
  scrape_site requests_get html_parser str url = inr d ->
  source d = match url with
             | Some (String c u) => String c u
             | _ => default_url
             end
  /\ truthy (source d) = true
  /\ exists raw,
       requests_get (source d) = inr raw
       /\ d = normalize html_parser str raw (source d).
Proof.
  unfold scrape_site. intros H.
  destruct (requests_get (str_or url default_url)) as [e|raw] eqn:R;
    [discriminate H|].
  injection H as <-. unfold normalize, build_data. cbn [source].
  split; [|split].
  - destruct url as [[|c u]|]; reflexivity.
  - destruct url as [[|c u]|]; reflexivity.
  - exists raw. split; [exact R|reflexivity].
Qed.

Lemma document_matches_its_source_witness :
  exists d,
    scrape_site fetch_acme_only HtmlParser.parse HtmlParser.str (Some "")
    = inr d
    /\ source d = default_url.
Proof.
  eexists. split; [reflexivity|].
  exact (proj1 (document_matches_its_source
                  fetch_acme_only HtmlParser.parse HtmlParser.str
                  (Some "") _ eq_refl)).
Defined.

(** *** The heading and what it contains *)

Lemma elements_of_unfold (n : node) (sibs : list node) :
  elements_of n sibs = mkElement n sibs :: descendants (contents_of n).
Proof.
  destruct n as [nm d cs|s|s]; reflexivity.
Qed.

Lemma first_match_app (p : node -> bool) (a t rest : list PageElement)
      (e : PageElement) :
  first_match p a = Some (e, rest) ->
  first_match p (a ++ t) = Some (e, rest ++ t).
Proof.
  induction a as [|x a IH]; simpl; [discriminate|].
  destruct (p (self x)); [|exact IH].
  intros H. injection H as <- <-. reflexivity.
Qed.

(** The elements below a forest, put before a nested stretch, form a
    nested stretch, once the same holds below each of its trees. *)
Lemma nested_forest (cs : list node) :
  Forall (fun n => forall sibs tail,
              nested tail -> nested (elements_of n sibs ++ tail)) cs ->
  forall tail, nested tail -> nested (descendants cs ++ tail).
Proof.
  induction 1 as [|c l Hc Hl IH]; intros tail T; simpl; [exact T|].
  rewrite <- app_assoc. apply Hc, IH, T.
Qed.

Lemma nested_tree (n : node) :
  forall sibs tail, nested tail -> nested (elements_of n sibs ++ tail).
Proof.
  induction n as [nm d cs IH|s|s] using node_induction;
    intros sibs tail T; rewrite elements_of_unfold; cbn [contents_of app];
    intros p e rest; cbn [first_match self].
  - destruct (p (Tag nm d cs)).
    + intros H. injection H as <- <-. now exists tail.
    + apply (nested_forest cs IH tail T).
  - destruct (p (NavigableString s)).
    + intros H. injection H as <- <-. now exists tail.
    + apply T.
  - destruct (p (Comment s)).
    + intros H. injection H as <- <-. now exists tail.
    + apply T.
Qed.

(** In document order an element is followed at once by its own
    descendants. *)
Lemma descendants_nested (cs : list node) : nested (descendants cs).
Proof.
  rewrite <- (app_nil_r (descendants cs)).
  apply nested_forest.
  - apply Forall_forall. intros n _. apply nested_tree.
  - intros p e rest H. discriminate H.
Qed.

(** A block inside the heading is taken for the subheading: when the
    first [h1] has text and contains a [p], [h2] or [div], the subheading
    is the text, cut at 300 characters, of the first such element inside
    the heading, not of what comes after the heading. *)
Theorem subheading_inside_heading
        (html_parser : string -> soup) (str : node -> string)
        (sp : soup) (target : string)
        (h1 inner : PageElement) (following inside : list PageElement) :
  first_match (is_tag "h1") (descendants sp) = Some (h1, following) ->
  truthy (get_text "" (self h1)) = true ->
  first_match (name_in ["p"; "h2"; "div"])
              (descendants (contents_of (self h1))) = Some (inner, inside) ->
  subheading (hero (build_data html_parser str sp target))
  = Some (slice_to 300 (get_text "" (self inner))).
Proof.
  intros F T B. unfold build_data. cbn [hero subheading].
  rewrite scrape_hero_sub_spec, F, T.
  unfold subheading_as_specified, following_block. rewrite F.
  destruct (descendants_nested sp _ _ _ F) as [tail ->].
  rewrite (first_match_app _ _ tail _ _ B). reflexivity.
Qed.

Lemma subheading_inside_heading_witness :
  hero (normalize HtmlParser.parse HtmlParser.str
                  nested_block_page default_url)
  = {| heading := Some "Brand"; subheading := Some "Brand" |}.
Proof.
  assert (S : subheading (hero (normalize HtmlParser.parse HtmlParser.str
                                          nested_block_page default_url))
              = Some "Brand").
  { unfold normalize, BeautifulSoup.
    eapply eq_trans;
      [eapply subheading_inside_heading; vm_compute; reflexivity|].
    vm_compute. reflexivity. }
  revert S.
  generalize (eq_refl : heading (hero (normalize HtmlParser.parse
                                                 HtmlParser.str
                                                 nested_block_page
                                                 default_url))
                        = Some "Brand").
  destruct (hero (normalize HtmlParser.parse HtmlParser.str
                            nested_block_page default_url)) as [h s].
  cbn [heading subheading]. intros -> ->. reflexivity.
Defined.
